(** * xrechnung_viewer: a shallow embedding of [xrechnung_viewer.py]

    The program is a coordination layer: it classifies an uploaded XML
    document by the namespace of its root element, runs a two-stage XSLT
    pipeline through an external engine and, for PDF export, pipes the
    result through an external renderer.  The external collaborators (lxml,
    saxonche, the operating system, Apache FOP) are an interface [Env];
    the Python code that calls them is embedded function by function, in a
    monad of state and exceptions. *)

From Stdlib Require Import String Ascii List Bool Arith Lia.
From stdpp Require Import gmap strings.
Import ListNotations.

Local Open Scope string_scope.

(** ** Python [str] methods used by the program *)

Module PyStr.

(** [not s] for a string: the empty string is falsy. *)
Definition falsy (s : string) : bool :=
  match s with EmptyString => true | String _ _ => false end.

(** [a or b] on strings. *)
Definition or_else (a b : string) : string := if falsy a then b else a.

(** [c in chars] for a single character [c]. *)
Fixpoint char_in (c : ascii) (chars : string) : bool :=
  match chars with
  | EmptyString => false
  | String d chars' => Ascii.eqb c d || char_in c chars'
  end.

(** [s.startswith(p)]. *)
Fixpoint startswith (p s : string) : bool :=
  match p, s with
  | EmptyString, _ => true
  | String a p', String b s' => Ascii.eqb a b && startswith p' s'
  | String _ _, EmptyString => false
  end.

(** [sub in s]: [sub] occurs in [s] at some position. *)
Fixpoint contains (sub s : string) : bool :=
  startswith sub s ||
  match s with
  | EmptyString => false
  | String _ s' => contains sub s'
  end.

(** [s.split(sep)] for a non-empty [sep], as the first piece and the list
    of the others.  [skip] counts the characters of a separator that was
    just matched and that remain to be dropped. *)
Fixpoint split_go (sep : string) (skip : nat) (s : string) : string * list string :=
  match s with
  | EmptyString => (EmptyString, [])
  | String c s' =>
      match skip with
      | S k => split_go sep k s'
      | O =>
          if startswith sep s
          then let '(h, t) := split_go sep (String.length sep - 1) s' in
               (EmptyString, h :: t)
          else let '(h, t) := split_go sep 0 s' in
               (String c h, t)
      end
  end.

Definition split (sep s : string) : list string :=
  let '(h, t) := split_go sep 0 s in h :: t.

(** [s.lstrip(chars)], [s.rstrip(chars)], [s.strip(chars)]: [chars] is a
    set of characters. *)
Fixpoint lstrip (chars s : string) : string :=
  match s with
  | EmptyString => EmptyString
  | String c s' => if char_in c chars then lstrip chars s' else s
  end.

Fixpoint rstrip (chars s : string) : string :=
  match s with
  | EmptyString => EmptyString
  | String c s' =>
      let r := rstrip chars s' in
      if falsy r && char_in c chars then EmptyString else String c r
  end.

Definition strip (chars s : string) : string := rstrip chars (lstrip chars s).

(** [s.replace(old, new)]: every occurrence, leftmost first, without
    overlap.  For an empty [old] Python inserts [new] before every
    character and at the end. *)
Fixpoint replace_go (old new : string) (skip : nat) (s : string) : string :=
  match s with
  | EmptyString => if falsy old then new else EmptyString
  | String c s' =>
      match skip with
      | S k => replace_go old new k s'
      | O =>
          if falsy old then new +:+ String c (replace_go old new 0 s')
          else if startswith old s
          then new +:+ replace_go old new (String.length old - 1) s'
          else String c (replace_go old new 0 s')
      end
  end.

Definition replace (old new s : string) : string := replace_go old new 0 s.

(** [os.pathsep.join(parts)]. *)
Fixpoint join (sep : string) (parts : list string) : string :=
  match parts with
  | [] => EmptyString
  | [p] => p
  | p :: ps => p +:+ sep +:+ join sep ps
  end.

(** [s.endswith(suffix)]. *)
Fixpoint endswith (suffix s : string) : bool :=
  String.eqb suffix s ||
  match s with
  | EmptyString => false
  | String _ s' => endswith suffix s'
  end.

End PyStr.

(** ** Exceptions, outcomes and the world *)

(** The exception classes that occur; all derive from [Exception], so the
    program's [except Exception] clauses catch each of them. *)
Inductive ExcClass :=
| ValueError | RuntimeError | FileNotFoundError | OSError
| KeyError | IndexError | TypeError | XMLSyntaxError | PySaxonApiError.

(** An exception object: its class and [str(e)]. *)
Record Exc := { exc_class : ExcClass; exc_str : string }.

Inductive Outcome (A : Type) :=
| Returned (a : A)
| Raised (e : Exc).
Arguments Returned {A} a.
Arguments Raised {A} e.

#[global] Instance Outcome_ret : MRet Outcome := fun A a => Returned a.
#[global] Instance Outcome_bind : MBind Outcome := fun A B f m =>
  match m with
  | Returned a => f a
  | Raised e => Raised e
  end.

Definition raise {A} (c : ExcClass) (msg : string) : Outcome A :=
  Raised {| exc_class := c; exc_str := msg |}.

(** [d[k]] on a dict with string keys. *)
Definition getitem {V} (d : gmap string V) (k : string) : Outcome V :=
  match d !! k with
  | Some v => Returned v
  | None => raise KeyError k
  end.

(** [l[i]] on a list. *)
Definition getitem_list {V} (l : list V) (i : nat) : Outcome V :=
  match l !! i with
  | Some v => Returned v
  | None => raise IndexError "list index out of range"
  end.

(** What the external collaborators are asked to do; the world records it,
    so that a statement can say that a call was, or was not, made. *)
Inductive Event :=
| EvCompile (stylesheet_file : string)
| EvTransformFile (stylesheet_file source_file : string)
| EvTransformNode (stylesheet_file : string)
| EvSubprocess (cmd : list (option string)).

(** The values bound at module level when the process starts. *)
Record Globals := { FOP_JAR : option string; JAVA_CMD : option string; HAS_FOP : bool }.

(** The state of the running process: the module-level names, the
    temporary directory as a map from path to file content, and the record
    of external calls. *)
Record World := { module_globals : Globals; fs : gmap string string; log : list Event }.

Definition set_fs (f : gmap string string) (w : World) : World :=
  {| module_globals := module_globals w; fs := f; log := log w |}.

Definition add_log (ev : Event) (w : World) : World :=
  {| module_globals := module_globals w; fs := fs w; log := log w ++ [ev] |}.

Definition Py (A : Type) : Type := World -> Outcome A * World.

#[global] Instance Py_ret : MRet Py := fun A a w => (Returned a, w).
#[global] Instance Py_bind : MBind Py := fun A B f m w =>
  match m w with
  | (Returned a, w') => f a w'
  | (Raised e, w') => (Raised e, w')
  end.

(** A computation that cannot touch the world. *)
Definition lift {A} (o : Outcome A) : Py A := fun w => (o, w).

Definition raise_py {A} (c : ExcClass) (msg : string) : Py A := lift (raise c msg).

(** [try: body finally: cleanup].  The cleanup runs whatever the body did;
    an exception of the cleanup replaces the body's outcome. *)
Definition try_finally {A} (body : Py A) (cleanup : Py unit) : Py A := fun w =>
  let '(r, w1) := body w in
  match cleanup w1 with
  | (Returned _, w2) => (r, w2)
  | (Raised e, w2) => (Raised e, w2)
  end.

(** [try: body except Exception as e: handler(e)]. *)
Definition try_except {A} (body : Py A) (handler : Exc -> Py A) : Py A := fun w =>
  match body w with
  | (Returned a, w1) => (Returned a, w1)
  | (Raised e, w1) => handler e w1
  end.

Definition record_event (ev : Event) : Py unit := fun w =>
  (Returned tt, add_log ev w).

(** Reading a module-level name. *)
Definition load_global {A} (name : Globals -> A) : Py A := fun w =>
  (Returned (name (module_globals w)), w).

(** [os.path.exists(p)], [os.path.getsize(p)], [open(p, "rb").read()] and
    [os.unlink(p)] on the temporary directory.  Reading or deleting a file
    that is there is taken to succeed; creating one may fail (see [Env]). *)
Definition os_path_exists (p : string) : Py bool := fun w =>
  (Returned (bool_decide (is_Some (fs w !! p))), w).

Definition os_path_getsize (p : string) : Py nat := fun w =>
  match fs w !! p with
  | Some c => (Returned (String.length c), w)
  | None => (raise FileNotFoundError p, w)
  end.

Definition open_read (p : string) : Py string := fun w =>
  match fs w !! p with
  | Some c => (Returned c, w)
  | None => (raise FileNotFoundError p, w)
  end.

Definition os_unlink (p : string) : Py unit := fun w =>
  match fs w !! p with
  | Some _ => (Returned tt, set_fs (delete p (fs w)) w)
  | None => (raise FileNotFoundError p, w)
  end.

(** ** The external collaborators *)

(** lxml's [_Element] as far as the program looks at it: the namespace name
    of the node ([None] for an unqualified element) and its local name. *)
Record Element := { ns_href : option string; local_name : string }.

(** [root.tag]: lxml builds the name in Clark notation. *)
Definition tag (e : Element) : string :=
  match ns_href e with
  | Some href => "{" +:+ href +:+ "}" +:+ local_name e
  | None => local_name e
  end.

(** A compiled stylesheet with the parameters set on it so far. *)
Record Executable := { stylesheet : string; parameters : list (string * string) }.

Definition set_parameter (k v : string) (x : Executable) : Executable :=
  {| stylesheet := stylesheet x; parameters := parameters x ++ [(k, v)] |}.

(** [subprocess.CompletedProcess] with captured text output. *)
Record CompletedProcess := { returncode : Z; stdout : string; stderr : string }.

Record Env := {
  (** [SCRIPT_DIR], the directory of the script, and the URI of
      [FONTS_DIR.resolve()]. *)
  SCRIPT_DIR : string;
  fonts_as_uri : string;
  (** [Path.exists()] on the installation tree, which is read-only. *)
  path_exists : string -> bool;
  (** [shutil.which("java")] and [os.environ.get("JAVA_HOME")]. *)
  shutil_which_java : option string;
  environ_JAVA_HOME : option string;
  (** [FOP_HOME.glob("*.jar")] and [os.pathsep]. *)
  fop_home_jars : list string;
  os_pathsep : string;
  (** [etree.fromstring]: the root element, or an exception. *)
  etree_fromstring : string -> Outcome Element;
  (** saxonche: compiling a stylesheet file, transforming a source file,
      parsing the intermediate text and transforming the parsed node.  A
      transformation returns a string or [None]. *)
  compile_stylesheet : string -> Outcome Executable;
  transform_source_file : Executable -> string -> gmap string string -> Outcome (option string);
  parse_xml : string -> Outcome string;
  transform_xdm_node : Executable -> string -> Outcome (option string);
  (** [tempfile.NamedTemporaryFile(suffix=..., delete=False)]: the name of
      the file the operating system created, or the error it raised; and
      whether writing the given content into that file raises, and then
      how many characters of the content had reached the file. *)
  mkstemp : string -> gmap string string -> Outcome string;
  write_error : string -> string -> gmap string string -> option (Exc * nat);
  (** [str(e)] of the [ValueError] with which werkzeug refuses a header
      value that holds a line break. *)
  header_newline_message : string;
  (** [subprocess.run(cmd, capture_output=True, text=True)]: the child may
      change the temporary directory in any way. *)
  subprocess_run : list (option string) -> gmap string string ->
                   Outcome CompletedProcess * gmap string string
}.

(** ** HTTP requests and responses (Flask) *)

(** An uploaded file: [file.filename] and what [file.read()] returns. *)
Record FileStorage := { filename : option string; stream : string }.

(** [request.files] and [request.form]. *)
Record Request := { files : gmap string FileStorage; form : gmap string string }.

(** The request as a handler finds it, its body not yet read.  The first
    use of [request.files], at lines 191 and 214 and outside every [try],
    makes werkzeug parse the body, which can raise ([RequestEntityTooLarge],
    [ClientDisconnected]); every later use of [request.files] and
    [request.form] reads the parsed form. *)
Record Unparsed := { load_form_data : Outcome Request }.

Inductive JsonValue := JStr (s : string) | JNull.

Inductive Body :=
| JsonBody (obj : list (string * JsonValue))
| RawBody (data : string)
| TemplateBody (template : string) (has_fop : bool).

Record Response := {
  status : nat;
  mimetype : string;
  headers : list (string * string);
  body : Body
}.

(** [jsonify(obj), status]. *)
Definition jsonify (obj : list (string * JsonValue)) (code : nat) : Response :=
  {| status := code; mimetype := "application/json"; headers := []; body := JsonBody obj |}.

(** [{"error": msg}]. *)
Definition error_obj (msg : string) : list (string * JsonValue) := [("error", JStr msg)].

Definition json_of_filename (f : option string) : JsonValue :=
  match f with Some s => JStr s | None => JNull end.

(** The double quote character, for the texts that contain it. *)
Definition dq : string := String (ascii_of_nat 34) EmptyString.
Definition quoted (s : string) : string := dq +:+ s +:+ dq.

(** *** [pathlib] on POSIX, on the string form of a path *)

(** [os.path.join(a, b)]. *)
Definition posix_join (a b : string) : string :=
  if PyStr.startswith "/" b then b
  else if PyStr.falsy a || PyStr.endswith "/" a then a +:+ b
  else a +:+ "/" +:+ b.

(** The root of a path: two leading slashes are kept, one is meant by
    one and by three or more. *)
Definition path_root (s : string) : string :=
  if PyStr.startswith "//" s && negb (PyStr.startswith "///" s) then "//"
  else if PyStr.startswith "/" s then "/"
  else EmptyString.

(** The components of a path: empty ones and [.] are dropped. *)
Definition path_parts (s : string) : list string :=
  List.filter (fun x => negb (PyStr.falsy x) && negb (String.eqb x "."))
              (PyStr.split "/" s).

(** [str(Path(s))]. *)
Definition path_str (s : string) : string :=
  PyStr.or_else (path_root s +:+ PyStr.join "/" (path_parts s)) ".".

(** [str(Path(dir) / name)]. *)
Definition path_join (dir name : string) : string := path_str (posix_join dir name).
Infix "//" := path_join (at level 40, left associativity).

(** [not x] for a value that is a string or [None]. *)
Definition py_not (x : option string) : bool :=
  match x with
  | None => true
  | Some s => PyStr.falsy s
  end.

(** A carriage return or a line feed occurs in [s]. *)
Definition has_line_break (s : string) : bool :=
  PyStr.char_in "013" s || PyStr.char_in "010" s.

(** ** The program *)

Section Program.

Context (env : Env).

Definition XSL_DIR : string :=
  SCRIPT_DIR env // "3rdparty" // "xrechnung-visualization" // "src" // "xsl".
Definition FOP_HOME : string := SCRIPT_DIR env // "lib" // "fop".

Definition find_fop : option string :=
  let fop_jar := FOP_HOME // "fop.jar" in
  if path_exists env fop_jar then Some fop_jar else None.

Definition find_java : option string :=
  let java_cmd := shutil_which_java env in
  if negb (py_not java_cmd) then java_cmd
  else
    let java_home := environ_JAVA_HOME env in
    match java_home with
    | Some home =>
        if negb (PyStr.falsy home) then
          let java_exe := home // "bin" // "java" in
          if path_exists env java_exe then Some java_exe else None
        else None
    | None => None
    end.

Definition font_entry (fonts_url file style weight : string) : string :=
  "        <font kerning=" +:+ quoted "yes" +:+ " embed-url=" +:+
  quoted (fonts_url +:+ "/" +:+ file) +:+ " embedding-mode=" +:+ quoted "subset" +:+ ">
          <font-triplet name=" +:+ quoted "SourceSerifPro" +:+ " style=" +:+ quoted style +:+
  " weight=" +:+ quoted weight +:+ "/>
        </font>
".

Definition generate_fop_config : string :=
  let fonts_url := fonts_as_uri env in
  "<?xml version=" +:+ quoted "1.0" +:+ " encoding=" +:+ quoted "UTF-8" +:+ "?>
<fop version=" +:+ quoted "1.0" +:+ ">
  <accessibility>true</accessibility>
  <renderers>
    <renderer mime=" +:+ quoted "application/pdf" +:+ ">
      <fonts>
" +:+ font_entry fonts_url "SourceSerifPro-Light.ttf" "normal" "normal"
+:+ font_entry fonts_url "SourceSerifPro-SemiBold.ttf" "normal" "bold"
+:+ font_entry fonts_url "SourceSerifPro-LightItalic.ttf" "italic" "normal"
+:+ font_entry fonts_url "SourceSerifPro-SemiBoldItalic.ttf" "italic" "bold" +:+
"      </fonts>
    </renderer>
  </renderers>
</fop>
".

(** Lines 85-87: evaluated once, when the module is loaded. *)
Definition startup : Globals :=
  let fop_jar := find_fop in
  let java_cmd := find_java in
  {| FOP_JAR := fop_jar;
     JAVA_CMD := java_cmd;
     HAS_FOP := bool_decide (is_Some fop_jar) && bool_decide (is_Some java_cmd) |}.

Definition NAMESPACES : gmap string string :=
  <["ubl_invoice" := "urn:oasis:names:specification:ubl:schema:xsd:Invoice-2"]>
  (<["ubl_creditnote" := "urn:oasis:names:specification:ubl:schema:xsd:CreditNote-2"]>
  (<["cii" := "urn:un:unece:uncefact:data:standard:CrossIndustryInvoice:100"]> ∅)).

(** The body of the [try] of [detect_document_type]. *)
Definition detect_document_type_try (xml_content : string) : Outcome (option string) :=
  root ← etree_fromstring env xml_content;
  ns ← (if PyStr.contains "}" (tag root)
        then first ← getitem_list (PyStr.split "}" (tag root)) 0;
             mret (PyStr.strip "{" first)
        else mret "");
  ubl_invoice ← getitem NAMESPACES "ubl_invoice";
  if String.eqb ns ubl_invoice then mret (Some "ubl_invoice")
  else
    ubl_creditnote ← getitem NAMESPACES "ubl_creditnote";
    if String.eqb ns ubl_creditnote then mret (Some "ubl_creditnote")
    else
      cii ← getitem NAMESPACES "cii";
      if String.eqb ns cii then mret (Some "cii")
      else mret None.

Definition detect_document_type (xml_content : string) : option string :=
  match detect_document_type_try xml_content with
  | Returned doc_type => doc_type
  | Raised _ => None
  end.

(** *** Calls to the collaborators, recorded in the world *)

Definition saxon_compile (stylesheet_file : string) : Py Executable := fun w =>
  (compile_stylesheet env stylesheet_file, add_log (EvCompile stylesheet_file) w).

Definition saxon_transform_file (x : Executable) (source_file : string) : Py (option string) :=
  fun w => (transform_source_file env x source_file (fs w),
            add_log (EvTransformFile (stylesheet x) source_file) w).

Definition saxon_parse_xml (xml_text : string) : Py string := lift (parse_xml env xml_text).

Definition saxon_transform_node (x : Executable) (node : string) : Py (option string) :=
  fun w => (transform_xdm_node env x node, add_log (EvTransformNode (stylesheet x)) w).

(** [NamedTemporaryFile(suffix=suffix, delete=False)]: the file exists,
    empty, as soon as the call returns. *)
Definition tempfile_create (suffix : string) : Py string := fun w =>
  match mkstemp env suffix (fs w) with
  | Returned p => (Returned p, set_fs (<[p := EmptyString]> (fs w)) w)
  | Raised e => (Raised e, w)
  end.

(** [f.write(content)] and the close at the end of the [with] block.  A
    write that fails leaves in the file the part of the content that was
    written before. *)
Definition file_write (p content : string) : Py unit := fun w =>
  match write_error env p content (fs w) with
  | Some (e, written) =>
      (Raised e, set_fs (<[p := String.substring 0 written content]> (fs w)) w)
  | None => (Returned tt, set_fs (<[p := content]> (fs w)) w)
  end.

(** [with NamedTemporaryFile(...) as f: f.write(content); name = f.name]. *)
Definition tempfile_with_content (suffix content : string) : Py string :=
  p ← tempfile_create suffix;
  file_write p content;;
  mret p.

Definition run_subprocess (cmd : list (option string)) : Py CompletedProcess := fun w =>
  let '(r, f) := subprocess_run env cmd (fs w) in
  (r, set_fs f (add_log (EvSubprocess cmd) w)).

(** [if os.path.exists(p): os.unlink(p)]. *)
Definition unlink_if_exists (p : string) : Py unit :=
  there ← os_path_exists p;
  if there : bool then os_unlink p else mret tt.

(** *** [transform_xml] *)

Definition xsl_mapping : gmap string string :=
  <["ubl_invoice" := "ubl-invoice-xr.xsl"]>
  (<["ubl_creditnote" := "ubl-creditnote-xr.xsl"]>
  (<["cii" := "cii-xr.xsl"]> ∅)).

(** [d[k]] where [k] is a string or [None]. *)
Definition getitem_key {V} (d : gmap string V) (k : option string) : Outcome V :=
  match k with
  | Some k => getitem d k
  | None => raise KeyError "None"
  end.

(** Lines 153-164 and 242-255: the first transformation, on a temporary
    copy of the upload that is deleted whatever the engine does. *)
Definition first_transformation (first_xsl xml_content : string) : Py (option string) :=
  executable1 ← saxon_compile first_xsl;
  temp_xml ← tempfile_with_content ".xml" xml_content;
  try_finally (saxon_transform_file executable1 temp_xml) (os_unlink temp_xml).

(** Lines 170-175 and 261-267: the second transformation, with the
    parameters set on the compiled stylesheet in the order given. *)
Definition second_transformation (second_xsl : string) (params : list (string * string))
    (xr_result : string) : Py (option string) :=
  executable2 ← saxon_compile second_xsl;
  let executable2 := fold_left (fun x kv => set_parameter kv.1 kv.2 x) params executable2 in
  node ← saxon_parse_xml xr_result;
  saxon_transform_node executable2 node.

Definition transform_xml (xml_content lang : string) : Py string :=
  let doc_type := detect_document_type xml_content in
  if py_not doc_type then
    raise_py ValueError
      "Unknown XML format. Supported: UBL Invoice, UBL CreditNote, CII/UNCEFACT"
  else
    xsl_name ← lift (getitem_key xsl_mapping doc_type);
    let first_xsl := XSL_DIR // xsl_name in
    let html_xsl := XSL_DIR // "xrechnung-html.xsl" in
    if negb (path_exists env first_xsl) then
      raise_py FileNotFoundError ("XSLT not found: " +:+ first_xsl)
    else if negb (path_exists env html_xsl) then
      raise_py FileNotFoundError ("XSLT not found: " +:+ html_xsl)
    else
      xr_result ← first_transformation first_xsl xml_content;
      if py_not xr_result then raise_py RuntimeError "First XSLT transformation failed"
      else
        html_result ← second_transformation html_xsl [("lang", lang)]
                                            (default EmptyString xr_result);
        if py_not html_result then raise_py RuntimeError "Second XSLT transformation failed"
        else mret (default EmptyString html_result).

(** *** The routes *)

Definition index : Py Response :=
  has_fop ← load_global HAS_FOP;
  mret {| status := 200; mimetype := "text/html"; headers := [];
          body := TemplateBody "index.html" has_fop |}.

Definition transform (request : Request) : Py Response :=
  match files request !! "file" with
  | None => mret (jsonify (error_obj "No file uploaded") 400)
  | Some file =>
      if bool_decide (filename file = Some EmptyString) then
        mret (jsonify (error_obj "No file selected") 400)
      else
        let lang := default "de" (form request !! "lang") in
        try_except
          (let xml_content := stream file in
           html ← transform_xml xml_content lang;
           mret (jsonify [("html", JStr html); ("filename", json_of_filename (filename file))] 200))
          (fun e => mret (jsonify (error_obj (exc_str e)) 500))
  end.

(** Lines 224-270 of [export_pdf]: from the upload to the XSL-FO text. *)
Definition export_fo (xml_content lang : string) : Py string :=
  let doc_type := detect_document_type xml_content in
  if py_not doc_type then raise_py ValueError "Unknown XML format"
  else
    xsl_name ← lift (getitem_key xsl_mapping doc_type);
    let first_xsl := XSL_DIR // xsl_name in
    let pdf_xsl := XSL_DIR // "xr-pdf.xsl" in
    xr_result ← first_transformation first_xsl xml_content;
    if py_not xr_result then raise_py RuntimeError "First XSLT transformation failed"
    else
      fo_result ← second_transformation pdf_xsl [("lang", lang); ("foengine", "fop")]
                                        (default EmptyString xr_result);
      if py_not fo_result then raise_py RuntimeError "XSL-FO transformation failed"
      else mret (default EmptyString fo_result).

(** Lines 272-286: the three temporary files, created one after the
    other before the [try] of line 288 is entered. *)
Definition export_tempfiles (fo_result : string) : Py (string * string * string) :=
  temp_fo ← tempfile_with_content ".fo" fo_result;
  temp_pdf ← tempfile_create ".pdf";
  temp_fop_config ← tempfile_with_content ".xconf" generate_fop_config;
  mret (temp_fo, temp_pdf, temp_fop_config).

(** Lines 312-316. *)
Definition attachment_filename (name : option string) : string :=
  if py_not name then "xrechnung.pdf"
  else PyStr.replace ".xml" ".pdf" (default EmptyString name).

(** Lines 289-304: the command line of the renderer. *)
Definition fop_cmd (java_cmd : option string) (temp_fo temp_pdf temp_fop_config : string)
  : list (option string) :=
  let fop_jars := fop_home_jars env in
  let classpath := PyStr.join (os_pathsep env) fop_jars in
  [java_cmd; Some "-cp"; Some classpath; Some "org.apache.fop.cli.Main";
   Some "-c"; Some temp_fop_config; Some "-fo"; Some temp_fo; Some "-pdf"; Some temp_pdf].

(** Lines 318-324 and 326-327: the two ways the inner [try] ends.
    [pdf_response] is what [Response] is asked to build. *)
Definition pdf_response (file : FileStorage) (pdf_content : string) : Response :=
  let name := attachment_filename (filename file) in
  {| status := 200; mimetype := "application/pdf";
     headers := [("Content-Disposition", "attachment; filename=" +:+ quoted name)];
     body := RawBody pdf_content |}.

(** [Response(...)] itself: werkzeug refuses a header value that holds a
    carriage return or a line feed, with [ValueError]. *)
Definition Response_init (r : Response) : Outcome Response :=
  if forallb (fun h => negb (has_line_break h.2)) (headers r) then Returned r
  else raise ValueError (header_newline_message env).

Definition fop_error (result : CompletedProcess) : string :=
  let error_msg :=
    PyStr.or_else (PyStr.or_else (stderr result) (stdout result)) "FOP execution failed" in
  "FOP error: " +:+ error_msg.

(** Lines 289-327: the body of the inner [try]. *)
Definition export_render_try (file : FileStorage) (temp_fo temp_pdf temp_fop_config : string)
  : Py Response :=
  java_cmd ← load_global JAVA_CMD;
  result ← run_subprocess (fop_cmd java_cmd temp_fo temp_pdf temp_fop_config);
  there ← os_path_exists temp_pdf;
  usable ← (if there : bool
            then size ← os_path_getsize temp_pdf; mret (0 <? size)%nat
            else mret false);
  if usable : bool then
    pdf_content ← open_read temp_pdf;
    lift (Response_init (pdf_response file pdf_content))
  else
    raise_py RuntimeError (fop_error result).

(** Lines 329-335: the [finally] clause. *)
Definition export_cleanup (temp_fo temp_pdf temp_fop_config : string) : Py unit :=
  unlink_if_exists temp_fo;;
  unlink_if_exists temp_pdf;;
  unlink_if_exists temp_fop_config.

(** Lines 288-335. *)
Definition export_render (file : FileStorage) (temp_fo temp_pdf temp_fop_config : string)
  : Py Response :=
  try_finally (export_render_try file temp_fo temp_pdf temp_fop_config)
              (export_cleanup temp_fo temp_pdf temp_fop_config).

(** Lines 224-335: the body of the outer [try]. *)
Definition export_pdf_try (file : FileStorage) (lang : string) : Py Response :=
  let xml_content := stream file in
  fo_result ← export_fo xml_content lang;
  temps ← export_tempfiles fo_result;
  let '(temp_fo, temp_pdf, temp_fop_config) := temps in
  export_render file temp_fo temp_pdf temp_fop_config.

Definition export_pdf (request : Request) : Py Response :=
  has_fop ← load_global HAS_FOP;
  if negb has_fop then mret (jsonify (error_obj "Apache FOP not installed") 500)
  else
    match files request !! "file" with
    | None => mret (jsonify (error_obj "No file uploaded") 400)
    | Some file =>
        if bool_decide (filename file = Some EmptyString) then
          mret (jsonify (error_obj "No file selected") 400)
        else
          let lang := default "de" (form request !! "lang") in
          try_except (export_pdf_try file lang)
                     (fun e => mret (jsonify (error_obj (exc_str e)) 500))
    end.

(** *** The handlers from the first use of [request.files] on

    [transform] and [export_pdf] above are the handlers on a request whose
    form has been parsed.  In the source the form is parsed by the handler
    itself: by [transform] at once, by [export_pdf] when [HAS_FOP] has been
    found true. *)

Definition transform_unparsed (request : Unparsed) : Py Response :=
  parsed ← lift (load_form_data request);
  transform parsed.


(** *** The process: start-up, then one request after the other *)

Inductive Route := GET_index | POST_transform | POST_export_pdf.

Definition serve (route : Route) (request : Request) : Py Response :=
  match route with
  | GET_index => index
  | POST_transform => transform request
  | POST_export_pdf => export_pdf request
  end.

(** The world once the module is loaded, over a temporary directory. *)
Definition boot (tmp : gmap string string) : World :=
  {| module_globals := startup; fs := tmp; log := [] |}.

(** Serving a sequence of requests; a route handler never lets an
    exception escape, and one that did would be answered by Flask with
    status 500. *)
Fixpoint serve_all (reqs : list (Route * Request)) (w : World) : list Response * World :=
  match reqs with
  | [] => ([], w)
  | (route, request) :: reqs' =>
      let '(r, w1) := serve route request w in
      let response :=
        match r with
        | Returned response => response
        | Raised e => jsonify (error_obj "Internal Server Error") 500
        end in
      let '(rs, w2) := serve_all reqs' w1 in
      (response :: rs, w2)
  end.

End Program.

(** ** Notions used in the statements *)

(** XML names and namespace names as the parser hands them out: an XML
    name cannot contain a brace, and libxml2 refuses a namespace name that
    is not a URI, which excludes braces too. *)
Definition brace_free (s : string) : bool :=
  negb (PyStr.char_in "{" s) && negb (PyStr.char_in "}" s).

Definition clark_ok (e : Element) : bool :=
  match ns_href e with
  | Some href => brace_free href
  | None => true
  end && brace_free (local_name e).

(** The namespace of an element; the empty string for an unqualified one. *)
Definition root_namespace (e : Element) : string := default EmptyString (ns_href e).

(** A computation keeps the module-level names when, whatever it does to
    the temporary directory and the record of calls, it leaves
    [module_globals] as it found it. *)
Definition keeps_globals {A} (m : Py A) : Prop :=
  forall w, module_globals (m w).2 = module_globals w.

Create HintDb globals.

(** Lines 306-327 once the renderer has exited. *)
Definition render_outcome (env : Env) (file : FileStorage) (temp_pdf : string)
    (result : CompletedProcess) (tmp : gmap string string) : Outcome Response :=
  match tmp !! temp_pdf with
  | Some pdf_content =>
      if (0 <? String.length pdf_content)%nat
      then Response_init env (pdf_response file pdf_content)
      else raise RuntimeError (fop_error result)
  | None => raise RuntimeError (fop_error result)
  end.

(** [wp m Q w]: running [m] in the world [w] ends, by a return or by an
    exception, in an outcome and a world that satisfy [Q]. *)
Definition wp {A} (m : Py A) (Q : Outcome A -> World -> Prop) (w : World) : Prop :=
  Q (m w).1 (m w).2.

(** The calls to the XSLT engine, as opposed to the run of a subprocess. *)
Definition engine_event (ev : Event) : Prop :=
  match ev with
  | EvSubprocess _ => False
  | _ => True
  end.

(** The events an export may add: calls to the engine, and runs of the
    renderer with the command line of lines 293-304. *)
Definition export_event (env : Env) (java_cmd : option string) (ev : Event) : Prop :=
  match ev with
  | EvSubprocess cmd =>
      exists temp_fo temp_pdf temp_fop_config,
        cmd = fop_cmd env java_cmd temp_fo temp_pdf temp_fop_config
  | _ => True
  end.

(** How many subprocesses a list of events has run. *)
Definition subprocess_runs (evs : list Event) : nat :=
  List.length (List.filter (fun ev => match ev with EvSubprocess _ => true | _ => false end) evs).

(** ** A concrete installation, for running the program *)

Module Sample.

Definition ubl_invoice_xml : string :=
  "<Invoice xmlns='urn:oasis:names:specification:ubl:schema:xsd:Invoice-2'/>".
Definition ubl_creditnote_xml : string :=
  "<cn:CreditNote xmlns:cn='urn:oasis:names:specification:ubl:schema:xsd:CreditNote-2'/>".
Definition cii_xml : string :=
  "<rsm:CrossIndustryInvoice xmlns:rsm='urn:un:unece:uncefact:data:standard:CrossIndustryInvoice:100'/>".
Definition other_xml : string := "<order xmlns='urn:example:orders'/>".
Definition unqualified_xml : string := "<Invoice/>".
Definition not_xml : string := "%PDF-1.4 not a markup document".

(** A parser that knows five documents and rejects everything else. *)
Definition documents : list (string * Element) :=
  [ (ubl_invoice_xml,
     {| ns_href := Some "urn:oasis:names:specification:ubl:schema:xsd:Invoice-2";
        local_name := "Invoice" |});
    (ubl_creditnote_xml,
     {| ns_href := Some "urn:oasis:names:specification:ubl:schema:xsd:CreditNote-2";
        local_name := "CreditNote" |});
    (cii_xml,
     {| ns_href := Some "urn:un:unece:uncefact:data:standard:CrossIndustryInvoice:100";
        local_name := "CrossIndustryInvoice" |});
    (other_xml, {| ns_href := Some "urn:example:orders"; local_name := "order" |});
    (unqualified_xml, {| ns_href := None; local_name := "Invoice" |}) ].

Fixpoint assoc {V} (k : string) (l : list (string * V)) : option V :=
  match l with
  | [] => None
  | (k', v) :: l' => if String.eqb k k' then Some v else assoc k l'
  end.

Definition fromstring (xml : string) : Outcome Element :=
  match assoc xml documents with
  | Some root => Returned root
  | None => raise XMLSyntaxError "Start tag expected, '<' not found, line 1, column 1"
  end.

(** The argument that follows [flag] on a command line. *)
Fixpoint arg_after (flag : string) (cmd : list (option string)) : option string :=
  match cmd with
  | Some a :: ((b :: _) as rest) => if String.eqb a flag then b else arg_after flag rest
  | _ :: rest => arg_after flag rest
  | [] => None
  end.

(** A renderer: what it writes to its output file, if anything, and how
    it exits. *)
Record Renderer := {
  writes : option string;
  exit_code : Z;
  says_out : string;
  says_err : string
}.

Definition run_renderer (r : Renderer) (cmd : list (option string)) (tmp : gmap string string)
  : Outcome CompletedProcess * gmap string string :=
  let result := {| returncode := exit_code r; stdout := says_out r; stderr := says_err r |} in
  match writes r, arg_after "-pdf" cmd with
  | Some content, Some out => (Returned result, <[out := content]> tmp)
  | _, _ => (Returned result, tmp)
  end.

Definition good_renderer : Renderer :=
  {| writes := Some "%PDF-1.4 rendered"; exit_code := 0; says_out := ""; says_err := "" |}.

(** An installation: which files of the installation tree are missing,
    what the two transformations return, which temporary file the
    operating system refuses to create, and the renderer. *)
Record Setup := {
  missing : list string;
  first_result : option string;
  second_result : option string;
  refused_suffix : option string;
  renderer : Renderer;
  java : option string
}.

Definition env_of (s : Setup) : Env :=
  {| SCRIPT_DIR := "/app";
     fonts_as_uri := "file:///app/3rdparty/xrechnung-visualization/conf/fonts";
     path_exists := fun p => negb (existsb (String.eqb p) (missing s));
     shutil_which_java := java s;
     environ_JAVA_HOME := None;
     fop_home_jars := ["/app/lib/fop/fop.jar"; "/app/lib/fop/batik.jar"];
     os_pathsep := ":";
     etree_fromstring := fromstring;
     compile_stylesheet := fun p =>
       if existsb (String.eqb p) (missing s)
       then raise PySaxonApiError ("Failed to compile stylesheet: " +:+ p)
       else Returned {| stylesheet := p; parameters := [] |};
     transform_source_file := fun _ source tmp =>
       match tmp !! source with
       | Some _ => Returned (first_result s)
       | None => raise PySaxonApiError ("Source file not found: " +:+ source)
       end;
     parse_xml := fun text => Returned text;
     transform_xdm_node := fun _ _ => Returned (second_result s);
     mkstemp := fun suffix _ =>
       if bool_decide (refused_suffix s = Some suffix)
       then raise OSError "[Errno 28] No space left on device"
       else Returned ("/tmp/tmp8f3a" +:+ suffix);
     write_error := fun _ _ _ => None;
     header_newline_message := "Header values must not contain newline characters.";
     subprocess_run := run_renderer (renderer s) |}.

Definition working : Setup :=
  {| missing := [];
     first_result := Some "<xr:invoice/>";
     second_result := Some "<fo:root/>";
     refused_suffix := None;
     renderer := good_renderer;
     java := Some "/usr/bin/java" |}.

(** The installation [base] without a [java] on the search path and with
    [JAVA_HOME] set. *)
Definition with_java_home (home : string) (base : Env) : Env :=
  {| SCRIPT_DIR := SCRIPT_DIR base;
     fonts_as_uri := fonts_as_uri base;
     path_exists := path_exists base;
     shutil_which_java := None;
     environ_JAVA_HOME := Some home;
     fop_home_jars := fop_home_jars base;
     os_pathsep := os_pathsep base;
     etree_fromstring := etree_fromstring base;
     compile_stylesheet := compile_stylesheet base;
     transform_source_file := transform_source_file base;
     parse_xml := parse_xml base;
     transform_xdm_node := transform_xdm_node base;
     mkstemp := mkstemp base;
     write_error := write_error base;
     header_newline_message := header_newline_message base;
     subprocess_run := subprocess_run base |}.

Definition upload (name content : string) : Request :=
  {| files := {[ "file" := {| filename := Some name; stream := content |} ]};
     form := ∅ |}.

End Sample.

(** An installation whose collaborators fail: the engine raises while it
    runs the first transformation, or the renderer cannot be started. *)
Module Faulty.

Definition env_of (s : Sample.Setup) (engine_error spawn_error : option Exc) : Env :=
  let base := Sample.env_of s in
  {| SCRIPT_DIR := SCRIPT_DIR base;
     fonts_as_uri := fonts_as_uri base;
     path_exists := path_exists base;
     shutil_which_java := shutil_which_java base;
     environ_JAVA_HOME := environ_JAVA_HOME base;
     fop_home_jars := fop_home_jars base;
     os_pathsep := os_pathsep base;
     etree_fromstring := etree_fromstring base;
     compile_stylesheet := compile_stylesheet base;
     transform_source_file := fun x source tmp =>
       match engine_error with
       | Some e => Raised e
       | None => transform_source_file base x source tmp
       end;
     parse_xml := parse_xml base;
     transform_xdm_node := transform_xdm_node base;
     mkstemp := mkstemp base;
     write_error := write_error base;
     header_newline_message := header_newline_message base;
     subprocess_run := fun cmd tmp =>
       match spawn_error with
       | Some e => (Raised e, tmp)
       | None => subprocess_run base cmd tmp
       end |}.

(** The installation [base] on a disk that is full: every write to a
    temporary file fails with [e] after [written] characters. *)
Definition disk_full (e : Exc) (written : nat) (base : Env) : Env :=
  {| SCRIPT_DIR := SCRIPT_DIR base;
     fonts_as_uri := fonts_as_uri base;
     path_exists := path_exists base;
     shutil_which_java := shutil_which_java base;
     environ_JAVA_HOME := environ_JAVA_HOME base;
     fop_home_jars := fop_home_jars base;
     os_pathsep := os_pathsep base;
     etree_fromstring := etree_fromstring base;
     compile_stylesheet := compile_stylesheet base;
     transform_source_file := transform_source_file base;
     parse_xml := parse_xml base;
     transform_xdm_node := transform_xdm_node base;
     mkstemp := mkstemp base;
     write_error := fun _ _ _ => Some (e, written);
     header_newline_message := header_newline_message base;
     subprocess_run := subprocess_run base |}.

End Faulty.

(** * Properties *)

(** ** Python [str] methods *)

Example split_two : PyStr.split "}" "{urn:a}Invoice" = ["{urn:a"; "Invoice"].
Proof. reflexivity. Qed.

Example split_trailing : PyStr.split "}" "a}" = ["a"; ""].
Proof. reflexivity. Qed.

Example strip_braces : PyStr.strip "{" "{{ab{c{" = "ab{c".
Proof. reflexivity. Qed.

Example replace_all : PyStr.replace ".xml" ".pdf" "a.xml.xml" = "a.pdf.pdf".
Proof. reflexivity. Qed.

Example replace_empty_old : PyStr.replace "" "-" "ab" = "-a-b-".
Proof. reflexivity. Qed.

(** ** The classifier *)

Section StringFacts.

Lemma append_nil (t : string) : EmptyString +:+ t = t.
Proof. reflexivity. Qed.

Lemma append_cons (d : ascii) (s t : string) : String d s +:+ t = String d (s +:+ t).
Proof. reflexivity. Qed.

Lemma contains_char c s : PyStr.contains (String c EmptyString) s = PyStr.char_in c s.
Proof.
  induction s as [|d s IH]; [reflexivity|].
  cbn [PyStr.contains PyStr.char_in PyStr.startswith]. rewrite IH.
  rewrite (Ascii.eqb_sym c d).
  destruct (Ascii.ascii_dec c d) as [->|Hne].
  - rewrite Ascii.eqb_refl. destruct s; reflexivity.
  - destruct (Ascii.eqb_spec d c) as [->|_]; [congruence|]. reflexivity.
Qed.

Lemma char_in_app c s t :
  PyStr.char_in c (s +:+ t) = PyStr.char_in c s || PyStr.char_in c t.
Proof.
  induction s as [|d s IH]; [reflexivity|].
  rewrite append_cons. cbn [PyStr.char_in]. rewrite IH. now rewrite orb_assoc.
Qed.

(** The first piece of a split is the text before the first separator. *)
Lemma split_go_first c s t :
  PyStr.char_in c s = false ->
  fst (PyStr.split_go (String c EmptyString) 0 (s +:+ String c t)) = s.
Proof.
  induction s as [|d s IH]; intros Hs.
  - rewrite append_nil. cbn. rewrite Ascii.eqb_refl.
    destruct (PyStr.split_go _ _ t). reflexivity.
  - cbn in Hs. apply orb_false_elim in Hs as [Hcd Hs].
    rewrite append_cons. cbn [PyStr.split_go PyStr.startswith].
    rewrite Hcd. cbn [andb].
    specialize (IH Hs).
    destruct (PyStr.split_go (String c EmptyString) 0 (s +:+ String c t)) as [h rest].
    cbn in *. now f_equal.
Qed.

Lemma split_first c s t :
  PyStr.char_in c s = false ->
  PyStr.split (String c EmptyString) (s +:+ String c t) !! 0%nat = Some s.
Proof.
  intros Hs. unfold PyStr.split.
  pose proof (split_go_first c s t Hs) as H.
  destruct (PyStr.split_go _ _ _) as [h rest]. cbn in *. now subst.
Qed.

Lemma rstrip_id c s : PyStr.char_in c s = false -> PyStr.rstrip (String c EmptyString) s = s.
Proof.
  induction s as [|d s IH]; intros Hs; [reflexivity|].
  cbn in Hs. apply orb_false_elim in Hs as [Hcd Hs].
  cbn. rewrite (IH Hs). rewrite (Ascii.eqb_sym d c), Hcd.
  cbn. now rewrite andb_false_r.
Qed.

Lemma lstrip_id c s : PyStr.char_in c s = false -> PyStr.lstrip (String c EmptyString) s = s.
Proof.
  destruct s as [|d s]; intros Hs; [reflexivity|].
  cbn in Hs. apply orb_false_elim in Hs as [Hcd _].
  cbn. now rewrite (Ascii.eqb_sym d c), Hcd.
Qed.

Lemma strip_after_one c s :
  PyStr.char_in c s = false ->
  PyStr.strip (String c EmptyString) (String c s) = s.
Proof.
  intros Hs. unfold PyStr.strip. cbn [PyStr.lstrip PyStr.char_in].
  rewrite Ascii.eqb_refl. cbn [orb].
  rewrite (lstrip_id c s Hs). now apply rstrip_id.
Qed.

End StringFacts.

(** Lines 112-113 on an element in Clark notation: the namespace that the
    classifier compares is the namespace of the element. *)
Lemma clark_namespace (root : Element) :
  clark_ok root = true ->
  (if PyStr.contains "}" (tag root)
   then first ← getitem_list (PyStr.split "}" (tag root)) 0;
        mret (PyStr.strip "{" first)
   else mret EmptyString) = Returned (root_namespace root).
Proof.
  unfold clark_ok, root_namespace, tag, brace_free.
  destruct root as [[href|] name]; cbn [ns_href local_name default];
    intros H; apply andb_prop in H as [Hns Hname].
  - apply andb_prop in Hns as [Ho Hc].
    apply negb_true_iff in Ho, Hc.
    rewrite contains_char.
    change ("{" +:+ href +:+ "}" +:+ name) with (String "{" href +:+ String "}" name).
    rewrite char_in_app. cbn [PyStr.char_in].
    rewrite Ascii.eqb_refl, !orb_true_r.
    unfold getitem_list.
    rewrite split_first by (cbn; now rewrite Hc).
    change (Returned (PyStr.strip "{" (String "{" href)) = Returned href).
    f_equal. now apply strip_after_one.
  - apply andb_prop in Hname as [_ Hc]. apply negb_true_iff in Hc.
    rewrite contains_char, Hc. reflexivity.
Qed.

Lemma NAMESPACES_inv (t ns : string) :
  NAMESPACES !! t = Some ns ->
  (t = "ubl_invoice" /\ ns = "urn:oasis:names:specification:ubl:schema:xsd:Invoice-2") \/
  (t = "ubl_creditnote" /\ ns = "urn:oasis:names:specification:ubl:schema:xsd:CreditNote-2") \/
  (t = "cii" /\ ns = "urn:un:unece:uncefact:data:standard:CrossIndustryInvoice:100").
Proof.
  unfold NAMESPACES. intros H.
  repeat (apply lookup_insert_Some in H as [[<- <-]|[_ H]]; [tauto|]).
  now rewrite lookup_empty in H.
Qed.

(** The comparisons of lines 115-121 select the key of [NAMESPACES] whose
    value is the namespace, if there is one. *)
Lemma detect_document_type_of_root (env : Env) (xml_content : string) (root : Element) :
  etree_fromstring env xml_content = Returned root ->
  clark_ok root = true ->
  forall t, detect_document_type env xml_content = Some t <->
            NAMESPACES !! t = Some (root_namespace root).
Proof.
  intros Hparse Hok t.
  unfold detect_document_type, detect_document_type_try.
  rewrite Hparse. cbn [mbind Outcome_bind].
  rewrite (clark_namespace root Hok). cbn [mbind Outcome_bind].
  set (ns := root_namespace root).
  change (getitem NAMESPACES "ubl_invoice")
    with (Returned "urn:oasis:names:specification:ubl:schema:xsd:Invoice-2").
  change (getitem NAMESPACES "ubl_creditnote")
    with (Returned "urn:oasis:names:specification:ubl:schema:xsd:CreditNote-2").
  change (getitem NAMESPACES "cii")
    with (Returned "urn:un:unece:uncefact:data:standard:CrossIndustryInvoice:100").
  cbn [mbind Outcome_bind mret Outcome_ret].
  destruct (String.eqb_spec ns "urn:oasis:names:specification:ubl:schema:xsd:Invoice-2") as [E1|N1];
    [|destruct (String.eqb_spec ns "urn:oasis:names:specification:ubl:schema:xsd:CreditNote-2") as [E2|N2];
      [|destruct (String.eqb_spec ns "urn:un:unece:uncefact:data:standard:CrossIndustryInvoice:100") as [E3|N3]]].
  all: split; intros H.
  all: try (injection H as <-; rewrite ?E1, ?E2, ?E3; reflexivity).
  all: try discriminate H.
  all: apply NAMESPACES_inv in H as [[-> H]|[[-> H]|[-> H]]]; try reflexivity; congruence.
Qed.

(** C1. For every input, the classifier returns the document type whose
    namespace URI in [NAMESPACES] is exactly the namespace of the root
    element, and [None] for every other namespace, for an unqualified root
    and for an input that does not parse; it never raises.  The parser is
    taken to answer with an element in Clark notation whose names are free
    of braces. *)
Theorem detect_document_type_by_root_namespace (env : Env) (xml_content : string) :
  (forall root, etree_fromstring env xml_content = Returned root -> clark_ok root = true) ->
  (forall t, detect_document_type env xml_content = Some t <->
             exists root, etree_fromstring env xml_content = Returned root /\
                          NAMESPACES !! t = Some (root_namespace root)) /\
  (forall root, etree_fromstring env xml_content = Returned root ->
                (forall t, NAMESPACES !! t <> Some (root_namespace root)) ->
                detect_document_type env xml_content = None) /\
  (forall root, etree_fromstring env xml_content = Returned root ->
                ns_href root = None ->
                detect_document_type env xml_content = None) /\
  (forall e, etree_fromstring env xml_content = Raised e ->
             detect_document_type env xml_content = None).
Proof.
  intros Hok.
  assert (Hnone : forall root, etree_fromstring env xml_content = Returned root ->
                    (forall t, NAMESPACES !! t <> Some (root_namespace root)) ->
                    detect_document_type env xml_content = None).
  { intros root Hparse Hno.
    destruct (detect_document_type env xml_content) as [t|] eqn:E; [|reflexivity].
    apply (detect_document_type_of_root env _ root Hparse (Hok _ Hparse)) in E.
    now apply Hno in E. }
  repeat split.
  - intros H. destruct (etree_fromstring env xml_content) as [root|e] eqn:Hparse.
    + exists root. split; [reflexivity|].
      now apply (detect_document_type_of_root env xml_content root Hparse (Hok _ eq_refl)).
    + unfold detect_document_type, detect_document_type_try in H.
      rewrite Hparse in H. discriminate H.
  - intros (root & Hparse & Ht).
    now apply (detect_document_type_of_root env xml_content root Hparse (Hok _ Hparse)).
  - exact Hnone.
  - intros root Hparse Hns. apply (Hnone root Hparse).
    intros t Ht. unfold root_namespace in Ht. rewrite Hns in Ht. cbn in Ht.
    apply NAMESPACES_inv in Ht. intuition discriminate.
  - intros e Hparse. unfold detect_document_type, detect_document_type_try.
    now rewrite Hparse.
Qed.

Lemma detect_document_type_by_root_namespace_witness :
  detect_document_type (Sample.env_of Sample.working) Sample.cii_xml = Some "cii".
Proof.
  apply (proj1 (detect_document_type_by_root_namespace
                  (Sample.env_of Sample.working) Sample.cii_xml
                  ltac:(intros root H; vm_compute in H; injection H as <-; reflexivity))).
  eexists. split; reflexivity.
Defined.

(** The classifier on the documents of the sample parser. *)
Example detect_samples :
  let detect := detect_document_type (Sample.env_of Sample.working) in
  detect Sample.ubl_invoice_xml = Some "ubl_invoice" /\
  detect Sample.ubl_creditnote_xml = Some "ubl_creditnote" /\
  detect Sample.cii_xml = Some "cii" /\
  detect Sample.other_xml = None /\
  detect Sample.unqualified_xml = None /\
  detect Sample.not_xml = None.
Proof. cbn zeta. repeat split. Qed.

(** Why the names are required to be free of braces: lines 112-113 cut the
    tag at its first closing brace and strip opening braces at both ends,
    so on a tag whose namespace part held a brace they would compare a
    shorter text than the namespace. *)
Example clark_namespace_needs_brace_free :
  let root := {| ns_href := Some "urn:example}orders"; local_name := "order" |} in
  clark_ok root = false /\
  PyStr.strip "{" (default EmptyString (PyStr.split "}" (tag root) !! 0%nat)) = "urn:example" /\
  root_namespace root = "urn:example}orders".
Proof. cbn zeta. repeat split. Qed.

(** ** The module-level names are never rebound *)

Section KeepsGlobals.

Context (env : Env).

Lemma keeps_ret {A} (a : A) : keeps_globals (mret a : Py A).
Proof. now intros w. Qed.

Lemma keeps_lift {A} (o : Outcome A) : keeps_globals (lift o).
Proof. now intros w. Qed.

Lemma keeps_raise {A} c msg : keeps_globals (@raise_py A c msg).
Proof. now intros w. Qed.

Lemma keeps_bind {A B} (m : Py A) (f : A -> Py B) :
  keeps_globals m -> (forall a, keeps_globals (f a)) -> keeps_globals (m ≫= f).
Proof.
  intros Hm Hf w. unfold mbind, Py_bind.
  specialize (Hm w). destruct (m w) as [[a|e] w1]; cbn in *.
  - now rewrite Hf.
  - exact Hm.
Qed.

Lemma keeps_try_finally {A} (body : Py A) (cleanup : Py unit) :
  keeps_globals body -> keeps_globals cleanup -> keeps_globals (try_finally body cleanup).
Proof.
  intros Hb Hc w. unfold try_finally.
  specialize (Hb w). destruct (body w) as [r w1]. cbn in Hb.
  specialize (Hc w1). destruct (cleanup w1) as [[[]|e] w2]; cbn in *; congruence.
Qed.

Lemma keeps_try_except {A} (body : Py A) (handler : Exc -> Py A) :
  keeps_globals body -> (forall e, keeps_globals (handler e)) ->
  keeps_globals (try_except body handler).
Proof.
  intros Hb Hh w. unfold try_except.
  specialize (Hb w). destruct (body w) as [[a|e] w1]; cbn in *; [exact Hb|].
  now rewrite Hh.
Qed.

Lemma keeps_load_global {A} (name : Globals -> A) : keeps_globals (load_global name).
Proof. now intros w. Qed.

Lemma keeps_record_event ev : keeps_globals (record_event ev).
Proof. now intros w. Qed.

Lemma keeps_os_path_exists p : keeps_globals (os_path_exists p).
Proof. now intros w. Qed.

Lemma keeps_os_path_getsize p : keeps_globals (os_path_getsize p).
Proof. intros w. unfold os_path_getsize. now destruct (fs w !! p). Qed.

Lemma keeps_open_read p : keeps_globals (open_read p).
Proof. intros w. unfold open_read. now destruct (fs w !! p). Qed.

Lemma keeps_os_unlink p : keeps_globals (os_unlink p).
Proof. intros w. unfold os_unlink. now destruct (fs w !! p). Qed.

Lemma keeps_saxon_compile p : keeps_globals (saxon_compile env p).
Proof. now intros w. Qed.

Lemma keeps_saxon_transform_file x p : keeps_globals (saxon_transform_file env x p).
Proof. now intros w. Qed.

Lemma keeps_saxon_parse_xml t : keeps_globals (saxon_parse_xml env t).
Proof. now intros w. Qed.

Lemma keeps_saxon_transform_node x n : keeps_globals (saxon_transform_node env x n).
Proof. now intros w. Qed.

Lemma keeps_tempfile_create suffix : keeps_globals (tempfile_create env suffix).
Proof. intros w. unfold tempfile_create. now destruct (mkstemp env suffix (fs w)). Qed.

Lemma keeps_file_write p c : keeps_globals (file_write env p c).
Proof. intros w. unfold file_write. now destruct (write_error env p c (fs w)) as [[e n]|]. Qed.

Lemma keeps_run_subprocess cmd : keeps_globals (run_subprocess env cmd).
Proof. intros w. unfold run_subprocess. now destruct (subprocess_run env cmd (fs w)). Qed.

End KeepsGlobals.

#[global] Hint Resolve keeps_ret keeps_lift keeps_raise keeps_load_global keeps_record_event
  keeps_os_path_exists keeps_os_path_getsize keeps_open_read keeps_os_unlink
  keeps_saxon_compile keeps_saxon_transform_file keeps_saxon_parse_xml
  keeps_saxon_transform_node keeps_tempfile_create keeps_file_write
  keeps_run_subprocess : globals.

(** Goes through a computation built from the primitives above. *)
Ltac keeps_step :=
  match goal with
  | |- keeps_globals (_ ≫= _) => apply keeps_bind; [|intros ?]
  | |- keeps_globals (try_finally _ _) => apply keeps_try_finally
  | |- keeps_globals (try_except _ _) => apply keeps_try_except; [|intros ?]
  | |- keeps_globals (if ?b then _ else _) => destruct b
  | |- keeps_globals (match ?x with _ => _ end) => destruct x
  | |- keeps_globals (let '(_, _) := ?x in _) => destruct x
  | |- keeps_globals _ => solve [auto with globals]
  end.

Section HandlersKeepGlobals.

Context (env : Env).

Lemma keeps_transform_xml xml lang : keeps_globals (transform_xml env xml lang).
Proof.
  unfold transform_xml, first_transformation, second_transformation,
    tempfile_with_content.
  repeat keeps_step.
Qed.

Lemma keeps_index : keeps_globals index.
Proof. unfold index. repeat keeps_step. Qed.

Lemma keeps_transform request : keeps_globals (transform env request).
Proof.
  unfold transform. repeat keeps_step. apply keeps_transform_xml.
Qed.

Lemma keeps_export_pdf request : keeps_globals (export_pdf env request).
Proof.
  unfold export_pdf, export_pdf_try, export_fo, export_tempfiles, export_render,
    export_render_try, export_cleanup, unlink_if_exists, first_transformation,
    second_transformation, tempfile_with_content.
  repeat keeps_step.
Qed.

Lemma keeps_serve route request : keeps_globals (serve env route request).
Proof.
  destruct route; cbn [serve].
  - apply keeps_index.
  - apply keeps_transform.
  - apply keeps_export_pdf.
Qed.

Lemma serve_all_globals reqs w :
  module_globals (serve_all env reqs w).2 = module_globals w.
Proof.
  revert w. induction reqs as [|[route request] reqs IH]; intros w; [reflexivity|].
  cbn [serve_all].
  pose proof (keeps_serve route request w) as H.
  destruct (serve env route request w) as [r w1]. cbn in H.
  specialize (IH w1). destruct (serve_all env reqs w1) as [rs w2]. cbn in *.
  congruence.
Qed.

End HandlersKeepGlobals.

(** The world in which the request after [before] is served. *)
Lemma serve_all_snoc (env : Env) before route request w :
  (serve_all env (before ++ [(route, request)]) w).2 =
  (serve env route request (serve_all env before w).2).2.
Proof.
  revert w. induction before as [|[r0 q0] before IH]; intros w.
  - cbn. now destruct (serve env route request w).
  - cbn [app serve_all]. destruct (serve env r0 q0 w) as [r w1].
    specialize (IH w1).
    destruct (serve_all env (before ++ [(route, request)]) w1) as [rs w2].
    destruct (serve_all env before w1) as [rs' w2']. cbn in *. exact IH.
Qed.

(** C10. [FOP_JAR], [JAVA_CMD] and [HAS_FOP] are computed once, when the
    module is loaded, and no route handler rebinds them: whatever requests
    were served before, a request to any route finds the values of the
    start-up and leaves them in place. *)
Theorem capability_globals_fixed (env : Env) (tmp : gmap string string)
    (before : list (Route * Request)) (route : Route) (request : Request) :
  let w := (serve_all env before (boot env tmp)).2 in
  let w' := (serve env route request w).2 in
  module_globals w = startup env /\
  module_globals w' = startup env /\
  FOP_JAR (module_globals w) = find_fop env /\
  JAVA_CMD (module_globals w) = find_java env /\
  HAS_FOP (module_globals w) =
    bool_decide (is_Some (find_fop env)) && bool_decide (is_Some (find_java env)).
Proof.
  cbn zeta.
  assert (H : module_globals (serve_all env before (boot env tmp)).2 = startup env)
    by now rewrite serve_all_globals.
  repeat split.
  - exact H.
  - now rewrite keeps_serve.
  - now rewrite H.
  - now rewrite H.
  - now rewrite H.
Qed.

(** ** Export when the renderer is unavailable *)

(** C4. If the engine archive or the Java runtime was not found when the
    process started, an export request is answered with the error "Apache
    FOP not installed" and the world is left as it was; in particular no
    subprocess is run. *)
Theorem export_pdf_unavailable (env : Env) (request : Request) (w : World) :
  find_fop env = None \/ find_java env = None ->
  module_globals w = startup env ->
  HAS_FOP (module_globals w) = false /\
  export_pdf env request w =
    (Returned (jsonify (error_obj "Apache FOP not installed") 500), w) /\
  log (export_pdf env request w).2 = log w.
Proof.
  intros Hmissing Hg.
  assert (Hhas : HAS_FOP (module_globals w) = false).
  { rewrite Hg. unfold startup. cbn [HAS_FOP].
    destruct Hmissing as [-> | ->]; cbn.
    - reflexivity.
    - apply andb_false_r. }
  assert (Hrun : export_pdf env request w =
                 (Returned (jsonify (error_obj "Apache FOP not installed") 500), w)).
  { unfold export_pdf, load_global, mbind, Py_bind. now rewrite Hhas. }
  repeat split; [exact Hhas | exact Hrun | now rewrite Hrun].
Qed.

Lemma export_pdf_unavailable_witness :
  let env := Sample.env_of
               {| Sample.missing := ["/app/lib/fop/fop.jar"];
                  Sample.first_result := Some "<xr:invoice/>";
                  Sample.second_result := Some "<fo:root/>";
                  Sample.refused_suffix := None;
                  Sample.renderer := Sample.good_renderer;
                  Sample.java := Some "/usr/bin/java" |} in
  export_pdf env (Sample.upload "rechnung.xml" Sample.cii_xml) (boot env ∅) =
    (Returned (jsonify (error_obj "Apache FOP not installed") 500), boot env ∅).
Proof.
  intros env.
  apply (export_pdf_unavailable env (Sample.upload "rechnung.xml" Sample.cii_xml) (boot env ∅)).
  - left. reflexivity.
  - reflexivity.
Defined.

(** ** What the routes answer *)

(** Binding a computation whose result at [w] is known. *)
Lemma bind_returned {A B} (m : Py A) (f : A -> Py B) w a w1 :
  m w = (Returned a, w1) -> (m ≫= f) w = f a w1.
Proof. intros H. unfold mbind, Py_bind. now rewrite H. Qed.

Lemma bind_raised {A B} (m : Py A) (f : A -> Py B) w e w1 :
  m w = (Raised e, w1) -> (m ≫= f) w = (Raised e, w1).
Proof. intros H. unfold mbind, Py_bind. now rewrite H. Qed.

(** The document types the classifier can answer are keys of
    [xsl_mapping], and none of them is the empty string. *)
Lemma xsl_mapping_inv (t name : string) :
  xsl_mapping !! t = Some name ->
  (t = "ubl_invoice" /\ name = "ubl-invoice-xr.xsl") \/
  (t = "ubl_creditnote" /\ name = "ubl-creditnote-xr.xsl") \/
  (t = "cii" /\ name = "cii-xr.xsl").
Proof.
  unfold xsl_mapping. intros H.
  repeat (apply lookup_insert_Some in H as [[<- <-]|[_ H]]; [tauto|]).
  now rewrite lookup_empty in H.
Qed.

Lemma xsl_mapping_truthy (t name : string) :
  xsl_mapping !! t = Some name -> py_not (Some t) = false.
Proof. intros H. apply xsl_mapping_inv in H as [[-> _]|[[-> _]|[-> _]]]; reflexivity. Qed.

Section Routes.

Context (env : Env).

(** Lines 200-205: [transform] turns the outcome of [transform_xml] into
    a response. *)
Lemma transform_response (request : Request) (file : FileStorage) (w : World) :
  files request !! "file" = Some file ->
  filename file <> Some EmptyString ->
  transform env request w =
    match transform_xml env (stream file) (default "de" (form request !! "lang")) w with
    | (Returned html, w1) =>
        (Returned (jsonify [("html", JStr html);
                            ("filename", json_of_filename (filename file))] 200), w1)
    | (Raised e, w1) => (Returned (jsonify (error_obj (exc_str e)) 500), w1)
    end.
Proof.
  intros Hfile Hname. unfold transform. rewrite Hfile.
  rewrite bool_decide_eq_false_2 by exact Hname.
  unfold try_except, mbind, Py_bind.
  now destruct (transform_xml env (stream file) _ w) as [[html|e] w1].
Qed.

(** Lines 211-227 and 337-338: [export_pdf] with the renderer available
    turns the outcome of the body of its [try] into a response. *)
Lemma export_pdf_response (request : Request) (file : FileStorage) (w : World) :
  HAS_FOP (module_globals w) = true ->
  files request !! "file" = Some file ->
  filename file <> Some EmptyString ->
  export_pdf env request w =
    match export_pdf_try env file (default "de" (form request !! "lang")) w with
    | (Returned response, w1) => (Returned response, w1)
    | (Raised e, w1) => (Returned (jsonify (error_obj (exc_str e)) 500), w1)
    end.
Proof.
  intros Hhas Hfile Hname. unfold export_pdf, load_global, mbind at 1, Py_bind at 1.
  rewrite Hhas. cbn [negb]. rewrite Hfile.
  rewrite bool_decide_eq_false_2 by exact Hname.
  unfold try_except.
  now destruct (export_pdf_try env file _ w) as [[response|e] w1].
Qed.

Lemma transform_xml_unknown (xml lang : string) (w : World) :
  detect_document_type env xml = None ->
  transform_xml env xml lang w =
    (raise ValueError
       "Unknown XML format. Supported: UBL Invoice, UBL CreditNote, CII/UNCEFACT", w).
Proof. intros H. unfold transform_xml. now rewrite H. Qed.

Lemma export_pdf_try_unknown (file : FileStorage) (lang : string) (w : World) :
  detect_document_type env (stream file) = None ->
  export_pdf_try env file lang w = (raise ValueError "Unknown XML format", w).
Proof.
  intros H. unfold export_pdf_try. apply bind_raised.
  unfold export_fo. now rewrite H.
Qed.

End Routes.

(** C5, as the code has it.  A request whose upload the classifier does not
    recognise is answered with status 500 (the handlers answer every
    exception with 500) and a message that names the unknown format:
    by [/transform] always, by [/export-pdf] when the renderer is
    available; nothing is transformed or rendered. *)
Theorem unrecognized_upload_answered_500 (env : Env) (request : Request)
    (file : FileStorage) (w : World) :
  files request !! "file" = Some file ->
  filename file <> Some EmptyString ->
  detect_document_type env (stream file) = None ->
  transform env request w =
    (Returned (jsonify (error_obj
       "Unknown XML format. Supported: UBL Invoice, UBL CreditNote, CII/UNCEFACT") 500), w) /\
  (HAS_FOP (module_globals w) = true ->
   export_pdf env request w =
     (Returned (jsonify (error_obj "Unknown XML format") 500), w)).
Proof.
  intros Hfile Hname Hunknown. split.
  - rewrite (transform_response env request file w Hfile Hname).
    now rewrite transform_xml_unknown.
  - intros Hhas.
    rewrite (export_pdf_response env request file w Hhas Hfile Hname).
    now rewrite export_pdf_try_unknown.
Qed.

Lemma unrecognized_upload_answered_500_witness :
  let env := Sample.env_of Sample.working in
  let request := Sample.upload "order.xml" Sample.other_xml in
  transform env request (boot env ∅) =
    (Returned (jsonify (error_obj
       "Unknown XML format. Supported: UBL Invoice, UBL CreditNote, CII/UNCEFACT") 500),
     boot env ∅) /\
  export_pdf env request (boot env ∅) =
    (Returned (jsonify (error_obj "Unknown XML format") 500), boot env ∅).
Proof.
  intros env request.
  destruct (unrecognized_upload_answered_500 env request
              {| filename := Some "order.xml"; stream := Sample.other_xml |} (boot env ∅))
    as [Ht He].
  - reflexivity.
  - discriminate.
  - reflexivity.
  - split; [exact Ht | apply He; reflexivity].
Defined.

(** C5 as stated fails: an upload that is not XML is answered by both routes
    with status 500, which is not a 4xx status. *)
Lemma unrecognized_upload_not_4xx :
  let env := Sample.env_of Sample.working in
  let request := Sample.upload "scan.xml" Sample.not_xml in
  detect_document_type env Sample.not_xml = None /\
  (exists r w', transform env request (boot env ∅) = (Returned r, w') /\
                status r = 500 /\ ~ (400 <= status r < 500)) /\
  (exists r w', export_pdf env request (boot env ∅) = (Returned r, w') /\
                status r = 500 /\ ~ (400 <= status r < 500)).
Proof.
  cbn zeta. split; [reflexivity|]. split.
  - eexists _, _. split; [vm_compute; reflexivity|]. cbn. split; [reflexivity|lia].
  - eexists _, _. split; [vm_compute; reflexivity|]. cbn. split; [reflexivity|lia].
Qed.

(** ** The two transformations *)

Section Pipeline.

Context (env : Env) (xml lang dt name : string).
Hypothesis Hdt : detect_document_type env xml = Some dt.
Hypothesis Hname : xsl_mapping !! dt = Some name.

Let first_xsl := XSL_DIR env // name.
Let html_xsl := XSL_DIR env // "xrechnung-html.xsl".
Let pdf_xsl := XSL_DIR env // "xr-pdf.xsl".

(** Lines 141-147: the view pipeline looks for both stylesheets before it
    asks the engine for anything. *)
Lemma transform_xml_stylesheet_missing (w : World) :
  path_exists env first_xsl = false \/ path_exists env html_xsl = false ->
  exists missing_xsl,
    (missing_xsl = first_xsl \/ missing_xsl = html_xsl) /\
    path_exists env missing_xsl = false /\
    transform_xml env xml lang w =
      (raise FileNotFoundError ("XSLT not found: " +:+ missing_xsl), w).
Proof.
  intros Hmissing. unfold transform_xml.
  rewrite Hdt, (xsl_mapping_truthy dt name Hname).
  unfold getitem_key, getitem. rewrite Hname.
  unfold mbind at 1, Py_bind at 1, lift. fold first_xsl html_xsl.
  destruct (path_exists env first_xsl) eqn:E1; cbn [negb].
  - destruct Hmissing as [Hm|Hm]; [discriminate Hm|]. rewrite Hm. cbn [negb].
    exists html_xsl. auto.
  - exists first_xsl. auto.
Qed.

(** With both stylesheets in place, the view pipeline is the first
    transformation followed by the second. *)
Lemma transform_xml_stages (w : World) :
  path_exists env first_xsl = true ->
  path_exists env html_xsl = true ->
  transform_xml env xml lang w =
    (xr_result ← first_transformation env first_xsl xml;
     if py_not xr_result then raise_py RuntimeError "First XSLT transformation failed"
     else
       html_result ← second_transformation env html_xsl [("lang", lang)]
                                           (default EmptyString xr_result);
       if py_not html_result then raise_py RuntimeError "Second XSLT transformation failed"
       else mret (default EmptyString html_result)) w.
Proof.
  intros H1 H2. unfold transform_xml.
  rewrite Hdt, (xsl_mapping_truthy dt name Hname).
  unfold getitem_key, getitem. rewrite Hname.
  unfold mbind at 1, Py_bind at 1, lift. fold first_xsl html_xsl.
  now rewrite H1, H2.
Qed.

(** The export pipeline asks nothing about the stylesheets. *)
Lemma export_fo_stages (w : World) :
  export_fo env xml lang w =
    (xr_result ← first_transformation env first_xsl xml;
     if py_not xr_result then raise_py RuntimeError "First XSLT transformation failed"
     else
       fo_result ← second_transformation env pdf_xsl [("lang", lang); ("foengine", "fop")]
                                         (default EmptyString xr_result);
       if py_not fo_result then raise_py RuntimeError "XSL-FO transformation failed"
       else mret (default EmptyString fo_result)) w.
Proof.
  unfold export_fo.
  rewrite Hdt, (xsl_mapping_truthy dt name Hname).
  unfold getitem_key, getitem. rewrite Hname.
  unfold mbind at 1, Py_bind at 1, lift. reflexivity.
Qed.

(** C6, as the code has it.  An empty or absent result of the first
    transformation fails with "First XSLT transformation failed" in both
    pipelines; an empty or absent result of the second one fails with
    "Second XSLT transformation failed" in the view pipeline and with
    "XSL-FO transformation failed" in the export pipeline. *)
Theorem empty_result_messages (w : World) :
  (path_exists env first_xsl = true -> path_exists env html_xsl = true ->
   (forall xr w1,
      first_transformation env first_xsl xml w = (Returned xr, w1) ->
      py_not xr = true ->
      transform_xml env xml lang w =
        (raise RuntimeError "First XSLT transformation failed", w1)) /\
   (forall xr w1 html w2,
      first_transformation env first_xsl xml w = (Returned (Some xr), w1) ->
      py_not (Some xr) = false ->
      second_transformation env html_xsl [("lang", lang)] xr w1 = (Returned html, w2) ->
      py_not html = true ->
      transform_xml env xml lang w =
        (raise RuntimeError "Second XSLT transformation failed", w2))) /\
  (forall xr w1,
     first_transformation env first_xsl xml w = (Returned xr, w1) ->
     py_not xr = true ->
     export_fo env xml lang w =
       (raise RuntimeError "First XSLT transformation failed", w1)) /\
  (forall xr w1 fo w2,
     first_transformation env first_xsl xml w = (Returned (Some xr), w1) ->
     py_not (Some xr) = false ->
     second_transformation env pdf_xsl [("lang", lang); ("foengine", "fop")] xr w1
       = (Returned fo, w2) ->
     py_not fo = true ->
     export_fo env xml lang w =
       (raise RuntimeError "XSL-FO transformation failed", w2)).
Proof.
  split; [intros H1 H2; split|split].
  - intros xr w1 Hfirst Hempty.
    rewrite (transform_xml_stages w H1 H2), (bind_returned _ _ _ _ _ Hfirst).
    now rewrite Hempty.
  - intros xr w1 html w2 Hfirst Hfull Hsecond Hempty.
    rewrite (transform_xml_stages w H1 H2), (bind_returned _ _ _ _ _ Hfirst).
    rewrite Hfull. cbn [default]. rewrite (bind_returned _ _ _ _ _ Hsecond).
    now rewrite Hempty.
  - intros xr w1 Hfirst Hempty.
    rewrite (export_fo_stages w), (bind_returned _ _ _ _ _ Hfirst).
    now rewrite Hempty.
  - intros xr w1 fo w2 Hfirst Hfull Hsecond Hempty.
    rewrite (export_fo_stages w), (bind_returned _ _ _ _ _ Hfirst).
    rewrite Hfull. cbn [default]. rewrite (bind_returned _ _ _ _ _ Hsecond).
    now rewrite Hempty.
Qed.

End Pipeline.

Lemma empty_result_messages_witness :
  let env := Sample.env_of
               {| Sample.missing := [];
                  Sample.first_result := Some "";
                  Sample.second_result := Some "<fo:root/>";
                  Sample.refused_suffix := None;
                  Sample.renderer := Sample.good_renderer;
                  Sample.java := Some "/usr/bin/java" |} in
  (export_fo env Sample.cii_xml "de" (boot env ∅)).1 =
    raise RuntimeError "First XSLT transformation failed".
Proof.
  intros env.
  pose proof (empty_result_messages env Sample.cii_xml "de" "cii" "cii-xr.xsl"
                eq_refl eq_refl (boot env ∅)) as (_ & Hexport & _).
  rewrite (Hexport (Some "") (set_fs ∅ (add_log
             (EvTransformFile "/app/3rdparty/xrechnung-visualization/src/xsl/cii-xr.xsl"
                              "/tmp/tmp8f3a.xml")
             (add_log (EvCompile "/app/3rdparty/xrechnung-visualization/src/xsl/cii-xr.xsl")
                      (boot env ∅))))).
  - reflexivity.
  - vm_compute. reflexivity.
  - reflexivity.
Defined.

(** C6 as stated fails: in the export pipeline an absent result of the
    second transformation is reported as "XSL-FO transformation failed",
    by the pipeline and by the route, and that message does not name a
    second transformation. *)
Lemma export_second_stage_message :
  let env := Sample.env_of
               {| Sample.missing := [];
                  Sample.first_result := Some "<xr:invoice/>";
                  Sample.second_result := None;
                  Sample.refused_suffix := None;
                  Sample.renderer := Sample.good_renderer;
                  Sample.java := Some "/usr/bin/java" |} in
  let msg := "XSL-FO transformation failed" in
  (export_fo env Sample.cii_xml "de" (boot env ∅)).1 = raise RuntimeError msg /\
  (export_pdf env (Sample.upload "rechnung.xml" Sample.cii_xml) (boot env ∅)).1 =
    Returned (jsonify (error_obj msg) 500) /\
  msg <> "second transformation failed" /\
  msg <> "Second XSLT transformation failed" /\
  PyStr.contains "econd" msg = false.
Proof.
  cbn zeta. repeat split; try discriminate; vm_compute; reflexivity.
Qed.

(** The view route on an installation without [xrechnung-html.xsl]: the
    check of line 146 answers before the engine is asked for anything. *)
Example transform_missing_stylesheet_checked :
  let html_xsl := "/app/3rdparty/xrechnung-visualization/src/xsl/xrechnung-html.xsl" in
  let env := Sample.env_of
               {| Sample.missing := [html_xsl];
                  Sample.first_result := Some "<xr:invoice/>";
                  Sample.second_result := Some "<html/>";
                  Sample.refused_suffix := None;
                  Sample.renderer := Sample.good_renderer;
                  Sample.java := Some "/usr/bin/java" |} in
  transform env (Sample.upload "rechnung.xml" Sample.cii_xml) (boot env ∅) =
    (Returned (jsonify (error_obj ("XSLT not found: " +:+ html_xsl)) 500), boot env ∅).
Proof. vm_compute. reflexivity. Qed.

(** C7 on the export route: [export_pdf] has none of the checks of lines
    144-147.  With [xr-pdf.xsl] absent, the first transformation is compiled
    and run on a temporary copy of the upload, and the request then fails
    with the error of the engine, not with "XSLT not found". *)
Theorem export_pdf_missing_stylesheet_not_checked :
  let pdf_xsl := "/app/3rdparty/xrechnung-visualization/src/xsl/xr-pdf.xsl" in
  let first_xsl := "/app/3rdparty/xrechnung-visualization/src/xsl/cii-xr.xsl" in
  let env := Sample.env_of
               {| Sample.missing := [pdf_xsl];
                  Sample.first_result := Some "<xr:invoice/>";
                  Sample.second_result := Some "<fo:root/>";
                  Sample.refused_suffix := None;
                  Sample.renderer := Sample.good_renderer;
                  Sample.java := Some "/usr/bin/java" |} in
  let request := Sample.upload "rechnung.xml" Sample.cii_xml in
  path_exists env pdf_xsl = false /\
  (export_pdf env request (boot env ∅)).1 =
    Returned (jsonify (error_obj ("Failed to compile stylesheet: " +:+ pdf_xsl)) 500) /\
  log (export_pdf env request (boot env ∅)).2 =
    [EvCompile first_xsl; EvTransformFile first_xsl "/tmp/tmp8f3a.xml"; EvCompile pdf_xsl] /\
  (export_fo env Sample.cii_xml "de" (boot env ∅)).1 =
    raise PySaxonApiError ("Failed to compile stylesheet: " +:+ pdf_xsl).
Proof.
  cbn zeta. repeat split; vm_compute; reflexivity.
Qed.

(** ** Rendering *)

Lemma set_fs_same (w : World) : set_fs (fs w) w = w.
Proof. now destruct w. Qed.

Lemma unlink_if_exists_run (p : string) (w : World) :
  unlink_if_exists p w = (Returned tt, set_fs (delete p (fs w)) w).
Proof.
  unfold unlink_if_exists, os_path_exists, os_unlink, mbind, Py_bind.
  destruct (fs w !! p) as [c|] eqn:E.
  - rewrite bool_decide_eq_true_2 by now exists c.
    now rewrite E.
  - rewrite bool_decide_eq_false_2 by (intros [c Hc]; discriminate Hc).
    rewrite delete_id by exact E. now rewrite set_fs_same.
Qed.

(** The [finally] clause never raises and leaves none of the three files. *)
Lemma export_cleanup_run (temp_fo temp_pdf temp_fop_config : string) (w : World) :
  export_cleanup temp_fo temp_pdf temp_fop_config w =
    (Returned tt, set_fs (delete temp_fop_config (delete temp_pdf (delete temp_fo (fs w)))) w).
Proof.
  unfold export_cleanup, mbind, Py_bind.
  rewrite !unlink_if_exists_run. destruct w; reflexivity.
Qed.

Lemma try_finally_run {A} (body : Py A) (cleanup : Py unit) (w : World) r w1 w2 :
  body w = (r, w1) -> cleanup w1 = (Returned tt, w2) ->
  try_finally body cleanup w = (r, w2).
Proof. intros Hb Hc. unfold try_finally. now rewrite Hb, Hc. Qed.

(** Whatever the renderer did, once line 288 is reached the three files are
    gone when [export_render] ends. *)
Lemma export_render_leaves_no_file (env : Env) (file : FileStorage)
    (temp_fo temp_pdf temp_fop_config : string) (w : World) :
  let w' := (export_render env file temp_fo temp_pdf temp_fop_config w).2 in
  fs w' !! temp_fo = None /\ fs w' !! temp_pdf = None /\ fs w' !! temp_fop_config = None.
Proof.
  cbn zeta. unfold export_render.
  destruct (export_render_try env file temp_fo temp_pdf temp_fop_config w) as [r w1] eqn:E.
  rewrite (try_finally_run _ _ w r w1 _ E (export_cleanup_run _ _ _ w1)).
  cbn [snd set_fs fs].
  repeat split.
  - destruct (decide (temp_fop_config = temp_fo)) as [->|N1];
      [apply lookup_delete_eq|rewrite lookup_delete_ne by exact N1].
    destruct (decide (temp_pdf = temp_fo)) as [->|N2];
      [apply lookup_delete_eq|rewrite lookup_delete_ne by exact N2].
    apply lookup_delete_eq.
  - destruct (decide (temp_fop_config = temp_pdf)) as [->|N1];
      [apply lookup_delete_eq|rewrite lookup_delete_ne by exact N1].
    apply lookup_delete_eq.
  - apply lookup_delete_eq.
Qed.

Lemma export_render_run (env : Env) (file : FileStorage)
    (temp_fo temp_pdf temp_fop_config : string) (w : World)
    (result : CompletedProcess) (tmp : gmap string string) :
  let cmd := fop_cmd env (JAVA_CMD (module_globals w)) temp_fo temp_pdf temp_fop_config in
  subprocess_run env cmd (fs w) = (Returned result, tmp) ->
  export_render env file temp_fo temp_pdf temp_fop_config w =
    (render_outcome env file temp_pdf result tmp,
     set_fs (delete temp_fop_config (delete temp_pdf (delete temp_fo tmp)))
            (add_log (EvSubprocess cmd) w)).
Proof.
  cbn zeta. intros Hrun. unfold export_render.
  set (w1 := set_fs tmp (add_log (EvSubprocess
               (fop_cmd env (JAVA_CMD (module_globals w)) temp_fo temp_pdf temp_fop_config)) w)).
  assert (Htry : export_render_try env file temp_fo temp_pdf temp_fop_config w =
                 (render_outcome env file temp_pdf result tmp, w1)).
  { unfold export_render_try, load_global, mbind at 1, Py_bind at 1.
    unfold run_subprocess, mbind at 1, Py_bind at 1. rewrite Hrun. fold w1.
    unfold os_path_exists, mbind at 1, Py_bind at 1, render_outcome.
    change (fs w1) with tmp.
    destruct (tmp !! temp_pdf) as [pdf|] eqn:E.
    - rewrite bool_decide_eq_true_2 by now exists pdf.
      unfold os_path_getsize, open_read, mbind, Py_bind. change (fs w1) with tmp.
      rewrite E. cbn [mret Py_ret].
      destruct (0 <? String.length pdf)%nat; [|reflexivity].
      change (fs w1) with tmp. now rewrite E.
    - rewrite bool_decide_eq_false_2 by (intros [c Hc]; discriminate Hc).
      reflexivity. }
  rewrite (try_finally_run _ _ w _ w1 _ Htry (export_cleanup_run _ _ _ w1)).
  reflexivity.
Qed.

Section ReachingTheRenderer.

Context (env : Env) (request : Request) (file : FileStorage).
Context (w w1 w2 : World) (fo_result temp_fo temp_pdf temp_fop_config : string).
Context (result : CompletedProcess) (tmp : gmap string string).

Let lang := default "de" (form request !! "lang").
Let cmd := fop_cmd env (JAVA_CMD (module_globals w2)) temp_fo temp_pdf temp_fop_config.

(** The request passes the checks of lines 211-219, both transformations
    give the XSL-FO text, the three temporary files are created, and the
    renderer runs and exits. *)
Hypothesis Hhas : HAS_FOP (module_globals w) = true.
Hypothesis Hfile : files request !! "file" = Some file.
Hypothesis Hname : filename file <> Some EmptyString.
Hypothesis Hfo : export_fo env (stream file) lang w = (Returned fo_result, w1).
Hypothesis Htemps :
  export_tempfiles env fo_result w1 = (Returned (temp_fo, temp_pdf, temp_fop_config), w2).
Hypothesis Hrun : subprocess_run env cmd (fs w2) = (Returned result, tmp).

Lemma export_pdf_try_rendered :
  export_pdf_try env file lang w =
    export_render env file temp_fo temp_pdf temp_fop_config w2.
Proof.
  unfold export_pdf_try.
  rewrite (bind_returned _ _ _ _ _ Hfo), (bind_returned _ _ _ _ _ Htemps).
  reflexivity.
Qed.

Lemma export_pdf_rendered :
  export_pdf env request w =
    (match render_outcome env file temp_pdf result tmp with
     | Returned response => Returned response
     | Raised e => Returned (jsonify (error_obj (exc_str e)) 500)
     end,
     set_fs (delete temp_fop_config (delete temp_pdf (delete temp_fo tmp)))
            (add_log (EvSubprocess cmd) w2)).
Proof.
  rewrite (export_pdf_response env request file w Hhas Hfile Hname).
  fold lang. rewrite export_pdf_try_rendered.
  rewrite (export_render_run env file temp_fo temp_pdf temp_fop_config w2 result tmp Hrun).
  now destruct (render_outcome env file temp_pdf result tmp).
Qed.


(** C9, as the code has it.  When the check of line 308 fails, the error
    answered is "FOP error: " followed by the standard error text of the
    renderer if it is not empty, else by its standard output text if that
    is not empty, else by "FOP execution failed". *)
Theorem render_failure_detail :
  match tmp !! temp_pdf with
  | Some pdf_content => (0 <? String.length pdf_content)%nat
  | None => false
  end = false ->
  let detail :=
    if PyStr.falsy (stderr result)
    then if PyStr.falsy (stdout result) then "FOP execution failed" else stdout result
    else stderr result in
  (export_pdf env request w).1 =
    Returned (jsonify (error_obj ("FOP error: " +:+ detail)) 500).
Proof.
  cbn zeta. intros Hfail.
  rewrite export_pdf_rendered. unfold render_outcome. cbn [fst].
  assert (Hdetail : fop_error result =
            "FOP error: " +:+
            (if PyStr.falsy (stderr result)
             then if PyStr.falsy (stdout result) then "FOP execution failed" else stdout result
             else stderr result)).
  { unfold fop_error, PyStr.or_else.
    destruct (stderr result), (stdout result); reflexivity. }
  destruct (tmp !! temp_pdf) as [pdf|].
  - rewrite Hfail. cbn. now rewrite Hdetail.
  - cbn. now rewrite Hdetail.
Qed.

End ReachingTheRenderer.



Lemma render_failure_detail_witness :
  let env := Sample.env_of
               {| Sample.missing := [];
                  Sample.first_result := Some "<xr:invoice/>";
                  Sample.second_result := Some "<fo:root/>";
                  Sample.refused_suffix := None;
                  Sample.renderer :=
                    {| Sample.writes := None; Sample.exit_code := 0;
                       Sample.says_out := "Rendering page 1"; Sample.says_err := "" |};
                  Sample.java := Some "/usr/bin/java" |} in
  (export_pdf env (Sample.upload "rechnung.xml" Sample.cii_xml) (boot env ∅)).1 =
    Returned (jsonify (error_obj "FOP error: Rendering page 1") 500).
Proof.
  intros env.
  set (w := boot env ∅).
  set (w1 := (export_fo env Sample.cii_xml "de" w).2).
  set (w2 := (export_tempfiles env "<fo:root/>" w1).2).
  set (cmd := fop_cmd env (JAVA_CMD (module_globals w2))
                "/tmp/tmp8f3a.fo" "/tmp/tmp8f3a.pdf" "/tmp/tmp8f3a.xconf").
  apply (render_failure_detail env
           (Sample.upload "rechnung.xml" Sample.cii_xml)
           {| filename := Some "rechnung.xml"; stream := Sample.cii_xml |} w w1 w2
           "<fo:root/>" "/tmp/tmp8f3a.fo" "/tmp/tmp8f3a.pdf" "/tmp/tmp8f3a.xconf"
           {| returncode := 0; stdout := "Rendering page 1"; stderr := "" |}
           (subprocess_run env cmd (fs w2)).2).
  - reflexivity.
  - reflexivity.
  - discriminate.
  - vm_compute. reflexivity.
  - vm_compute. reflexivity.
  - vm_compute. reflexivity.
  - vm_compute. reflexivity.
Defined.

(** C9 as stated fails: when the renderer wrote to both streams, the error
    answered carries the standard error text alone; the standard output
    text is not part of it. *)
Lemma render_failure_detail_not_combined :
  let env := Sample.env_of
               {| Sample.missing := [];
                  Sample.first_result := Some "<xr:invoice/>";
                  Sample.second_result := Some "<fo:root/>";
                  Sample.refused_suffix := None;
                  Sample.renderer :=
                    {| Sample.writes := None; Sample.exit_code := 1;
                       Sample.says_out := "Rendering page 1";
                       Sample.says_err := "SEVERE: font not found" |};
                  Sample.java := Some "/usr/bin/java" |} in
  let detail := "FOP error: SEVERE: font not found" in
  (export_pdf env (Sample.upload "rechnung.xml" Sample.cii_xml) (boot env ∅)).1 =
    Returned (jsonify (error_obj detail) 500) /\
  PyStr.contains "Rendering page 1" detail = false /\
  detail <> "FOP error: " +:+ "SEVERE: font not found" +:+ "Rendering page 1" /\
  detail <> "FOP error: " +:+ "Rendering page 1" +:+ "SEVERE: font not found".
Proof.
  cbn zeta. repeat split; try discriminate; vm_compute; reflexivity.
Qed.

(** C3 on the path where a temporary file cannot be created: lines 272-286
    run before the [try] of line 288, so its [finally] clause is never
    reached.  When the operating system refuses the third file, the request
    is answered with the error, no renderer has run, and the [.fo] and
    [.pdf] files stay in a temporary directory that was empty. *)
Theorem export_pdf_leaves_files_when_creation_fails :
  let env := Sample.env_of
               {| Sample.missing := [];
                  Sample.first_result := Some "<xr:invoice/>";
                  Sample.second_result := Some "<fo:root/>";
                  Sample.refused_suffix := Some ".xconf";
                  Sample.renderer := Sample.good_renderer;
                  Sample.java := Some "/usr/bin/java" |} in
  let request := Sample.upload "rechnung.xml" Sample.cii_xml in
  let answer := export_pdf env request (boot env ∅) in
  answer.1 = Returned (jsonify (error_obj "[Errno 28] No space left on device") 500) /\
  fs answer.2 !! "/tmp/tmp8f3a.fo" = Some "<fo:root/>" /\
  fs answer.2 !! "/tmp/tmp8f3a.pdf" = Some "" /\
  fs answer.2 !! "/tmp/tmp8f3a.xconf" = None /\
  (forall cmd, EvSubprocess cmd ∉ log answer.2).
Proof.
  cbn zeta. repeat split; try (vm_compute; reflexivity).
  intros cmd Hin. vm_compute in Hin.
  repeat (apply elem_of_cons in Hin as [Hin|Hin]; [discriminate Hin|]).
  now apply elem_of_nil in Hin.
Qed.

(** ** The name of the attachment *)

Section ReplaceFacts.

(** With no occurrence of [old], [replace] changes nothing. *)
Lemma replace_absent (old new s : string) :
  PyStr.falsy old = false ->
  PyStr.contains old s = false ->
  PyStr.replace old new s = s.
Proof.
  intros Hold. unfold PyStr.replace.
  induction s as [|c s IH]; intros Habs.
  - cbn. now rewrite Hold.
  - cbn [PyStr.contains] in Habs. apply orb_false_elim in Habs as [Hhere Hlater].
    cbn [PyStr.replace_go]. rewrite Hold, Hhere. f_equal. now apply IH.
Qed.

(** An occurrence of [".xml"] cannot begin in [t] and end in a [".xml"]
    that follows it. *)
Lemma startswith_xml_append (t : string) :
  t <> EmptyString ->
  PyStr.startswith ".xml" (t +:+ ".xml") = PyStr.startswith ".xml" t.
Proof.
  intros Ht.
  destruct t as [|a [|b [|c [|d t]]]]; [congruence|..];
    rewrite ?append_cons, ?append_nil; cbn [PyStr.startswith].
  - change (Ascii.eqb "x" ".") with false. cbn [andb]. reflexivity.
  - change (Ascii.eqb "m" ".") with false. cbn [andb].
    now rewrite !andb_false_r.
  - change (Ascii.eqb "l" ".") with false. cbn [andb].
    now rewrite !andb_false_r.
  - reflexivity.
Qed.

Lemma replace_xml_suffix (stem : string) :
  PyStr.contains ".xml" stem = false ->
  PyStr.replace ".xml" ".pdf" (stem +:+ ".xml") = stem +:+ ".pdf".
Proof.
  unfold PyStr.replace.
  induction stem as [|c stem IH]; intros Habs; [reflexivity|].
  cbn [PyStr.contains] in Habs. apply orb_false_elim in Habs as [Hhere Hlater].
  pose proof (startswith_xml_append (String c stem) ltac:(discriminate)) as Hs.
  rewrite Hhere in Hs. rewrite !append_cons in *.
  cbn [PyStr.replace_go PyStr.falsy]. rewrite Hs. f_equal. now apply IH.
Qed.

End ReplaceFacts.

Lemma bind_returned_inv {A B} (m : Py A) (f : A -> Py B) w b w' :
  (m ≫= f) w = (Returned b, w') ->
  exists a w1, m w = (Returned a, w1) /\ f a w1 = (Returned b, w').
Proof.
  unfold mbind, Py_bind. destruct (m w) as [[a|e] w1]; intros H; [|discriminate H].
  now exists a, w1.
Qed.

(** The inner [try] returns nothing but the response of lines 318-324. *)
Lemma export_render_returns (env : Env) (file : FileStorage)
    (temp_fo temp_pdf temp_fop_config : string) (w w' : World) (response : Response) :
  export_render env file temp_fo temp_pdf temp_fop_config w = (Returned response, w') ->
  exists pdf_content, response = pdf_response file pdf_content.
Proof.
  unfold export_render. intros H.
  destruct (export_render_try env file temp_fo temp_pdf temp_fop_config w) as [r w1] eqn:E.
  rewrite (try_finally_run _ _ w r w1 _ E (export_cleanup_run _ _ _ w1)) in H.
  injection H as -> _.
  unfold export_render_try in E.
  apply bind_returned_inv in E as (java_cmd & wa & _ & E).
  apply bind_returned_inv in E as (result & wb & _ & E).
  apply bind_returned_inv in E as (there & wc & _ & E).
  apply bind_returned_inv in E as (usable & wd & _ & E).
  destruct usable; [|discriminate E].
  apply bind_returned_inv in E as (pdf_content & we & _ & E).
  unfold lift, Response_init in E.
  destruct (forallb _ _); [|discriminate E].
  injection E as <- _. now exists pdf_content.
Qed.

(** C8, as the code has it.  A successful export is answered with the PDF
    as an attachment whose name is the uploaded name after
    [replace(".xml", ".pdf")]: a name that ends in [".xml"] and has no
    other occurrence of it gets [".pdf"] in its place, a name in which
    [".xml"] does not occur is used as it is, and an upload without a name
    is called ["xrechnung.pdf"]. *)
Theorem attachment_named_after_upload (env : Env) (request : Request) (w : World)
    (response : Response) :
  (export_pdf env request w).1 = Returned response ->
  status response = 200 ->
  exists file pdf_content,
    files request !! "file" = Some file /\
    response = pdf_response file pdf_content /\
    mimetype response = "application/pdf" /\
    headers response =
      [("Content-Disposition",
        "attachment; filename=" +:+ quoted (attachment_filename (filename file)))] /\
    (forall stem, filename file = Some (stem +:+ ".xml") ->
                  PyStr.contains ".xml" stem = false ->
                  attachment_filename (filename file) = stem +:+ ".pdf") /\
    (forall name, filename file = Some name ->
                  PyStr.contains ".xml" name = false ->
                  attachment_filename (filename file) = name) /\
    (filename file = None -> attachment_filename (filename file) = "xrechnung.pdf").
Proof.
  intros Hanswer Hstatus.
  unfold export_pdf, load_global, mbind at 1, Py_bind at 1 in Hanswer.
  destruct (HAS_FOP (module_globals w)); cbn [negb] in Hanswer;
    [|injection Hanswer as <-; discriminate Hstatus].
  destruct (files request !! "file") as [file|];
    [|injection Hanswer as <-; discriminate Hstatus].
  destruct (bool_decide (filename file = Some EmptyString)) eqn:Hname;
    [injection Hanswer as <-; discriminate Hstatus|].
  apply bool_decide_eq_false in Hname.
  unfold try_except in Hanswer.
  destruct (export_pdf_try env file _ w) as [[r|e] w1] eqn:Htry;
    cbn in Hanswer; [|injection Hanswer as <-; discriminate Hstatus].
  injection Hanswer as ->.
  unfold export_pdf_try in Htry.
  apply bind_returned_inv in Htry as (fo_result & wa & _ & Htry).
  apply bind_returned_inv in Htry as ([[temp_fo temp_pdf] temp_fop_config] & wb & _ & Htry).
  apply export_render_returns in Htry as [pdf_content ->].
  exists file, pdf_content. repeat split.
  - intros stem Hfile Habs. rewrite Hfile. unfold attachment_filename.
    destruct stem; [reflexivity|]. cbn [py_not PyStr.falsy default].
    rewrite append_cons. cbn [PyStr.falsy]. rewrite <- append_cons.
    now apply replace_xml_suffix.
  - intros name Hfile Habs. rewrite Hfile in *. unfold attachment_filename.
    destruct name; [congruence|]. cbn [py_not PyStr.falsy default].
    now apply replace_absent.
  - now intros ->.
Qed.

Lemma attachment_named_after_upload_witness :
  let env := Sample.env_of Sample.working in
  exists file pdf_content,
    files (Sample.upload "rechnung.xml" Sample.cii_xml) !! "file" = Some file /\
    pdf_response {| filename := Some "rechnung.xml"; stream := Sample.cii_xml |}
                 "%PDF-1.4 rendered" = pdf_response file pdf_content.
Proof.
  intros env.
  destruct (attachment_named_after_upload env
              (Sample.upload "rechnung.xml" Sample.cii_xml) (boot env ∅)
              (pdf_response {| filename := Some "rechnung.xml"; stream := Sample.cii_xml |}
                            "%PDF-1.4 rendered"))
    as (file & pdf_content & Hfile & Hresponse & _).
  - vm_compute. reflexivity.
  - reflexivity.
  - now exists file, pdf_content.
Defined.

(** C8 as stated fails: the extension is replaced only when it is [".xml"].
    An upload called ["rechnung.XML"] is exported under that same name,
    which does not end in [".pdf"]. *)
Lemma attachment_extension_not_replaced :
  let env := Sample.env_of Sample.working in
  let request := Sample.upload "rechnung.XML" Sample.cii_xml in
  exists response,
    (export_pdf env request (boot env ∅)).1 = Returned response /\
    status response = 200 /\
    body response = RawBody "%PDF-1.4 rendered" /\
    headers response =
      [("Content-Disposition", "attachment; filename=" +:+ quoted "rechnung.XML")] /\
    PyStr.endswith ".pdf" "rechnung.XML" = false /\
    attachment_filename (Some "rechnung.XML") <> "rechnung.pdf".
Proof.
  cbn zeta. eexists. split; [vm_compute; reflexivity|].
  repeat split; discriminate.
Qed.

(** * Further properties *)

(** ** Rules for running the program symbolically *)

Section WpRules.

Context (env : Env).

Lemma wp_ret {A} (a : A) Q w : Q (Returned a) w -> wp (mret a : Py A) Q w.
Proof. exact id. Qed.

Lemma wp_lift {A} (o : Outcome A) Q w : Q o w -> wp (lift o) Q w.
Proof. exact id. Qed.

Lemma wp_raise {A} c msg (Q : Outcome A -> World -> Prop) w :
  Q (raise c msg) w -> wp (raise_py c msg) Q w.
Proof. exact id. Qed.

Lemma wp_bind {A B} (m : Py A) (f : A -> Py B) Q w :
  wp m (fun r w1 => match r with
                    | Returned a => wp (f a) Q w1
                    | Raised e => Q (Raised e) w1
                    end) w ->
  wp (m ≫= f) Q w.
Proof.
  unfold wp, mbind, Py_bind. now destruct (m w) as [[a|e] w1].
Qed.

Lemma wp_try_finally {A} (body : Py A) (cleanup : Py unit) Q w :
  wp body (fun r w1 =>
    wp cleanup (fun rc w2 => match rc with
                             | Returned _ => Q r w2
                             | Raised e => Q (Raised e) w2
                             end) w1) w ->
  wp (try_finally body cleanup) Q w.
Proof.
  unfold wp, try_finally. destruct (body w) as [r w1]. cbn [fst snd].
  now destruct (cleanup w1) as [[[]|e] w2].
Qed.

Lemma wp_try_except {A} (body : Py A) (handler : Exc -> Py A) Q w :
  wp body (fun r w1 => match r with
                       | Returned a => Q (Returned a) w1
                       | Raised e => wp (handler e) Q w1
                       end) w ->
  wp (try_except body handler) Q w.
Proof.
  unfold wp, try_except. now destruct (body w) as [[a|e] w1].
Qed.

Lemma wp_load_global {A} (name : Globals -> A) Q w :
  Q (Returned (name (module_globals w))) w -> wp (load_global name) Q w.
Proof. exact id. Qed.

Lemma wp_saxon_compile p Q w :
  (forall r, Q r (add_log (EvCompile p) w)) -> wp (saxon_compile env p) Q w.
Proof. intros H. apply H. Qed.

Lemma wp_saxon_transform_file x source Q w :
  (forall r, Q r (add_log (EvTransformFile (stylesheet x) source) w)) ->
  wp (saxon_transform_file env x source) Q w.
Proof. intros H. apply H. Qed.

Lemma wp_saxon_parse_xml text Q w :
  (forall r, Q r w) -> wp (saxon_parse_xml env text) Q w.
Proof. intros H. apply H. Qed.

Lemma wp_saxon_transform_node x node Q w :
  (forall r, Q r (add_log (EvTransformNode (stylesheet x)) w)) ->
  wp (saxon_transform_node env x node) Q w.
Proof. intros H. apply H. Qed.

Lemma wp_tempfile_create suffix Q w :
  (forall e, mkstemp env suffix (fs w) = Raised e -> Q (Raised e) w) ->
  (forall p, mkstemp env suffix (fs w) = Returned p ->
             Q (Returned p) (set_fs (<[p := EmptyString]> (fs w)) w)) ->
  wp (tempfile_create env suffix) Q w.
Proof.
  intros He Hp. unfold wp, tempfile_create.
  destruct (mkstemp env suffix (fs w)) as [p|e]; [now apply Hp|now apply He].
Qed.

Lemma wp_file_write p content Q w :
  (forall e written,
     write_error env p content (fs w) = Some (e, written) ->
     Q (Raised e) (set_fs (<[p := String.substring 0 written content]> (fs w)) w)) ->
  (write_error env p content (fs w) = None ->
   Q (Returned tt) (set_fs (<[p := content]> (fs w)) w)) ->
  wp (file_write env p content) Q w.
Proof.
  intros He Hok. unfold wp, file_write.
  destruct (write_error env p content (fs w)) as [[e written]|];
    [now apply He|now apply Hok].
Qed.

Lemma wp_run_subprocess cmd Q w :
  (forall r tmp, subprocess_run env cmd (fs w) = (r, tmp) ->
                 Q r (set_fs tmp (add_log (EvSubprocess cmd) w))) ->
  wp (run_subprocess env cmd) Q w.
Proof.
  intros H. unfold wp, run_subprocess.
  destruct (subprocess_run env cmd (fs w)) as [r tmp] eqn:E. now apply H.
Qed.

Lemma wp_os_unlink p Q w :
  (fs w !! p = None -> Q (raise FileNotFoundError p) w) ->
  (forall c, fs w !! p = Some c -> Q (Returned tt) (set_fs (delete p (fs w)) w)) ->
  wp (os_unlink p) Q w.
Proof.
  intros Hn Hs. unfold wp, os_unlink.
  destruct (fs w !! p) as [c|] eqn:E; [now apply (Hs c)|now apply Hn].
Qed.

Lemma wp_unlink_if_exists p Q w :
  Q (Returned tt) (set_fs (delete p (fs w)) w) -> wp (unlink_if_exists p) Q w.
Proof. intros H. unfold wp. now rewrite unlink_if_exists_run. Qed.

Lemma wp_os_path_exists p Q w :
  Q (Returned (bool_decide (is_Some (fs w !! p)))) w -> wp (os_path_exists p) Q w.
Proof. exact id. Qed.

Lemma wp_os_path_getsize p Q w :
  (fs w !! p = None -> Q (raise FileNotFoundError p) w) ->
  (forall c, fs w !! p = Some c -> Q (Returned (String.length c)) w) ->
  wp (os_path_getsize p) Q w.
Proof.
  intros Hn Hs. unfold wp, os_path_getsize.
  destruct (fs w !! p) as [c|] eqn:E; [now apply (Hs c)|now apply Hn].
Qed.

Lemma wp_open_read p Q w :
  (fs w !! p = None -> Q (raise FileNotFoundError p) w) ->
  (forall c, fs w !! p = Some c -> Q (Returned c) w) ->
  wp (open_read p) Q w.
Proof.
  intros Hn Hs. unfold wp, open_read.
  destruct (fs w !! p) as [c|] eqn:E; [now apply (Hs c)|now apply Hn].
Qed.

End WpRules.

(** One step of symbolic execution: the rule of the computation at the
    head of the goal, then the case analysis it asks for. *)
Ltac wp_step :=
  lazymatch goal with
  | |- wp (_ ≫= _) _ _ => apply wp_bind
  | |- wp (mret _) _ _ => apply wp_ret
  | |- wp (lift (if ?b then _ else _)) _ _ => destruct b eqn:?
  | |- wp (lift _) _ _ => apply wp_lift
  | |- wp (raise_py _ _) _ _ => apply wp_raise
  | |- wp (try_finally _ _) _ _ => apply wp_try_finally
  | |- wp (try_except _ _) _ _ => apply wp_try_except
  | |- wp (load_global _) _ _ => apply wp_load_global
  | |- wp (saxon_compile _ _) _ _ => apply wp_saxon_compile; intros [?|?]
  | |- wp (saxon_transform_file _ _ _) _ _ => apply wp_saxon_transform_file; intros [?|?]
  | |- wp (saxon_parse_xml _ _) _ _ => apply wp_saxon_parse_xml; intros [?|?]
  | |- wp (saxon_transform_node _ _ _) _ _ => apply wp_saxon_transform_node; intros [?|?]
  | |- wp (tempfile_create _ _) _ _ => apply wp_tempfile_create; [intros ? ?|intros ? ?]
  | |- wp (file_write _ _ _) _ _ => apply wp_file_write; [intros ? ? ?|intros ?]
  | |- wp (run_subprocess _ _) _ _ => apply wp_run_subprocess; intros [?|?] ? ?
  | |- wp (os_unlink _) _ _ => apply wp_os_unlink; [intros ?|intros ? ?]
  | |- wp (unlink_if_exists _) _ _ => apply wp_unlink_if_exists
  | |- wp (os_path_exists _) _ _ => apply wp_os_path_exists
  | |- wp (os_path_getsize _) _ _ => apply wp_os_path_getsize; [intros ?|intros ? ?]
  | |- wp (open_read _) _ _ => apply wp_open_read; [intros ?|intros ? ?]
  | |- wp (if ?b then _ else _) _ _ => destruct b eqn:?
  | |- wp (match ?x with _ => _ end) _ _ => destruct x eqn:?
  | |- wp (let '(_, _) := ?x in _) _ _ => destruct x eqn:?
  | |- match raise _ _ with Returned _ => _ | Raised _ => _ end => unfold raise at 1
  | |- match ?o with Returned _ => _ | Raised _ => _ end => destruct o eqn:?
  end; cbn [fs log module_globals set_fs add_log] in *.

Ltac wp_run := repeat wp_step.

(** ** What a request adds to the record of calls *)

(** Closes a goal that asks for the events added to the record. *)
Ltac added_events :=
  cbn [log fs module_globals set_fs add_log];
  rewrite <- ?app_assoc; cbn [app];
  first
    [ exists []; split; [now rewrite app_nil_r | constructor]
    | eexists; split; [reflexivity | repeat constructor] ].

(** X1. The view route only ever extends the record of calls, by calls to
    the XSLT engine: it never runs a subprocess. *)
Theorem transform_runs_no_subprocess (env : Env) (request : Request) (w : World) :
  exists evs,
    log (transform env request w).2 = (log w ++ evs)%list /\ Forall engine_event evs.
Proof.
  change (wp (transform env request)
             (fun _ w' => exists evs, log w' = (log w ++ evs)%list /\
                                      Forall engine_event evs) w).
  unfold transform, transform_xml, first_transformation, second_transformation,
    tempfile_with_content.
  wp_run; added_events.
Qed.

(** X2. The export route only ever extends the record of calls; the only
    subprocess it runs is the renderer, with the Java command found at
    start-up and the command line of lines 293-304, and it runs it at most
    once. *)
Theorem export_pdf_runs_renderer_at_most_once (env : Env) (request : Request) (w : World) :
  exists evs,
    log (export_pdf env request w).2 = (log w ++ evs)%list /\
    Forall (export_event env (JAVA_CMD (module_globals w))) evs /\
    subprocess_runs evs <= 1.
Proof.
  change (wp (export_pdf env request)
             (fun _ w' => exists evs,
                log w' = (log w ++ evs)%list /\
                Forall (export_event env (JAVA_CMD (module_globals w))) evs /\
                subprocess_runs evs <= 1) w).
  unfold export_pdf, export_pdf_try, export_fo, export_tempfiles, export_render,
    export_render_try, export_cleanup, first_transformation, second_transformation,
    tempfile_with_content.
  wp_run.
  all: cbn [log fs module_globals set_fs add_log]; rewrite <- ?app_assoc; cbn [app].
  all: first
    [ exists []; split; [now rewrite app_nil_r | split; [constructor | cbn; lia]]
    | eexists; split; [reflexivity | split; [|cbn; lia]];
      repeat constructor; cbn; eauto ].
Qed.

(** ** What the routes can answer *)

Lemma py_not_false_nonempty (x : option string) :
  py_not x = false -> default EmptyString x <> EmptyString.
Proof. destruct x as [[|c s]|]; cbn; congruence. Qed.

(** On a request whose form has been parsed, the view route answers
    whatever is raised inside its [try]. *)
Lemma transform_parsed_answers (env : Env) (request : Request) (w : World) :
  exists response,
    (transform env request w).1 = Returned response /\
    ((exists file html,
        files request !! "file" = Some file /\
        html <> EmptyString /\
        response = jsonify [("html", JStr html);
                            ("filename", json_of_filename (filename file))] 200) \/
     (exists msg code,
        response = jsonify (error_obj msg) code /\ (code = 400 \/ code = 500))).
Proof.
  change (wp (transform env request)
             (fun o _ => exists response,
                o = Returned response /\
                ((exists file html,
                    files request !! "file" = Some file /\
                    html <> EmptyString /\
                    response = jsonify [("html", JStr html);
                                        ("filename", json_of_filename (filename file))] 200) \/
                 (exists msg code,
                    response = jsonify (error_obj msg) code /\ (code = 400 \/ code = 500)))) w).
  unfold transform, transform_xml, first_transformation, second_transformation,
    tempfile_with_content.
  wp_run.
  all: eexists; split; [reflexivity|].
  all: try (right; eexists _, _; split; [reflexivity|]; auto; fail).
  left. eexists _, _. split; [reflexivity|]. split; [|reflexivity].
  now apply py_not_false_nonempty.
Qed.


(** X3. Whenever the view route comes back, it has let an exception escape
    only if the reading of the form at line 191, which is outside the
    [try], raised it; nothing has been done then.  Whatever is raised after
    that, by the classifier, the engine or the calls on temporary files, is
    answered: the response has status 200, a non-empty HTML text and the
    name of the upload as it was sent, or status 400 or 500 and a JSON
    object that holds an error message and nothing else. *)
Theorem transform_answers (env : Env) (request : Unparsed) (w w' : World)
    (o : Outcome Response) :
  transform_unparsed env request w = (o, w') ->
  match o with
  | Raised e => load_form_data request = Raised e /\ w' = w
  | Returned response =>
      (exists parsed file html,
         load_form_data request = Returned parsed /\
         files parsed !! "file" = Some file /\
         html <> EmptyString /\
         response = jsonify [("html", JStr html);
                             ("filename", json_of_filename (filename file))] 200) \/
      (exists msg code,
         response = jsonify (error_obj msg) code /\ (code = 400 \/ code = 500))
  end.
Proof.
  unfold transform_unparsed, lift, mbind, Py_bind.
  destruct (load_form_data request) as [parsed|e].
  - destruct (transform_parsed_answers env parsed w) as (response & Hanswer & Hshape).
    destruct (transform env parsed w) as [o1 w1]. cbn [fst] in Hanswer. subst o1.
    intros [= <- <-].
    destruct Hshape as [(file & html & Hshape)|Hshape]; [left|right; exact Hshape].
    now exists parsed, file, html.
  - intros [= <- <-]. now split.
Qed.

Lemma transform_answers_witness :
  let env := Sample.env_of Sample.working in
  let request :=
    {| load_form_data := Returned (Sample.upload "rechnung.xml" Sample.cii_xml) |} in
  (exists parsed file html,
     load_form_data request = Returned parsed /\
     files parsed !! "file" = Some file /\
     html <> EmptyString /\
     jsonify [("html", JStr "<fo:root/>"); ("filename", JStr "rechnung.xml")] 200 =
       jsonify [("html", JStr html); ("filename", json_of_filename (filename file))] 200) \/
  (exists msg code,
     jsonify [("html", JStr "<fo:root/>"); ("filename", JStr "rechnung.xml")] 200 =
       jsonify (error_obj msg) code /\ (code = 400 \/ code = 500)).
Proof.
  intros env request.
  set (w := boot env ∅).
  apply (transform_answers env request w (transform_unparsed env request w).2
           (Returned (jsonify [("html", JStr "<fo:root/>");
                               ("filename", JStr "rechnung.xml")] 200))).
  vm_compute. reflexivity.
Defined.



(** ** The temporary directory *)

(** X5. When the operating system hands out a name that is not in use, the
    view route leaves the temporary directory as it found it, whatever the
    engine answers or raises; the one exception is a failure while the
    upload is written to its temporary copy, which happens before the [try]
    of line 161: the file that was just created stays, and holds the part
    of the upload that was written before the failure. *)
Theorem transform_restores_tmp_dir (env : Env) (request : Request) (w : World) :
  (forall p, mkstemp env ".xml" (fs w) = Returned p -> fs w !! p = None) ->
  fs (transform env request w).2 = fs w \/
  exists file p e written,
    files request !! "file" = Some file /\
    mkstemp env ".xml" (fs w) = Returned p /\
    write_error env p (stream file) (<[p := EmptyString]> (fs w)) = Some (e, written) /\
    (transform env request w).1 = Returned (jsonify (error_obj (exc_str e)) 500) /\
    fs (transform env request w).2 =
      <[p := String.substring 0 written (stream file)]> (fs w).
Proof.
  intros Hfresh.
  change (wp (transform env request)
             (fun o w' =>
                fs w' = fs w \/
                exists file p e written,
                  files request !! "file" = Some file /\
                  mkstemp env ".xml" (fs w) = Returned p /\
                  write_error env p (stream file) (<[p := EmptyString]> (fs w)) =
                    Some (e, written) /\
                  o = Returned (jsonify (error_obj (exc_str e)) 500) /\
                  fs w' = <[p := String.substring 0 written (stream file)]> (fs w)) w).
  unfold transform, transform_xml, first_transformation, second_transformation,
    tempfile_with_content.
  wp_run.
  all: try (left; reflexivity).
  all: try match goal with
           | H : <[?p := _]> _ !! ?p = None |- _ =>
               rewrite lookup_insert_eq in H; discriminate H
           end.
  all: try (left; rewrite delete_insert_eq; apply delete_insert_id; now apply Hfresh).
  right. eexists _, _, _, _. repeat split; try eassumption.
  apply insert_insert_eq.
Qed.

Lemma transform_restores_tmp_dir_witness :
  let env := Sample.env_of Sample.working in
  let request := Sample.upload "rechnung.xml" Sample.cii_xml in
  fs (transform env request (boot env ∅)).2 = ∅.
Proof.
  intros env request.
  destruct (transform_restores_tmp_dir env request (boot env ∅)) as [H|H].
  - intros p _. apply lookup_empty.
  - exact H.
  - destruct H as (file & p & e & written & _ & _ & Hwrite & _). discriminate Hwrite.
Defined.

(** A write that fails after five characters leaves them in the copy. *)
Example transform_disk_full :
  let failure := {| exc_class := OSError; exc_str := "[Errno 28] No space left on device" |} in
  let env := Faulty.disk_full failure 5 (Sample.env_of Sample.working) in
  let request := Sample.upload "rechnung.xml" Sample.cii_xml in
  transform env request (boot env ∅) =
    (Returned (jsonify (error_obj "[Errno 28] No space left on device") 500),
     set_fs {[ "/tmp/tmp8f3a.xml" := "<rsm:" ]}
            (add_log (EvCompile (XSL_DIR env // "cii-xr.xsl")) (boot env ∅))).
Proof. vm_compute. reflexivity. Qed.

Section ExportWithTempFiles.

Context (env : Env) (request : Request) (file : FileStorage).
Context (w w1 w2 : World) (fo_result temp_fo temp_pdf temp_fop_config : string).

Let lang := default "de" (form request !! "lang").
Let cmd := fop_cmd env (JAVA_CMD (module_globals w2)) temp_fo temp_pdf temp_fop_config.

Hypothesis Hhas : HAS_FOP (module_globals w) = true.
Hypothesis Hfile : files request !! "file" = Some file.
Hypothesis Hname : filename file <> Some EmptyString.
Hypothesis Hfo : export_fo env (stream file) lang w = (Returned fo_result, w1).
Hypothesis Htemps :
  export_tempfiles env fo_result w1 = (Returned (temp_fo, temp_pdf, temp_fop_config), w2).

Lemma export_pdf_world_after_render :
  (export_pdf env request w).2 =
  (export_render env file temp_fo temp_pdf temp_fop_config w2).2.
Proof.
  rewrite (export_pdf_response env request file w Hhas Hfile Hname).
  rewrite (export_pdf_try_rendered env request file w w1 w2 _ _ _ _ Hfo Htemps).
  now destruct (export_render env file temp_fo temp_pdf temp_fop_config w2) as [[r|e] w'].
Qed.

(** X6. Once the three temporary files of an export have been created, none
    of them is left when the request has been answered, whatever the
    renderer did: exited with or without output, or failed to start. *)
Theorem export_pdf_removes_its_files :
  let w' := (export_pdf env request w).2 in
  fs w' !! temp_fo = None /\ fs w' !! temp_pdf = None /\ fs w' !! temp_fop_config = None.
Proof.
  cbn zeta. rewrite export_pdf_world_after_render.
  apply export_render_leaves_no_file.
Qed.

(** X7. When the renderer cannot be run at all, the exception of
    [subprocess.run] is answered with status 500 and its message, and the
    three temporary files are removed from what the attempt left of the
    temporary directory. *)
Theorem export_pdf_renderer_not_started (e : Exc) (tmp : gmap string string) :
  subprocess_run env cmd (fs w2) = (Raised e, tmp) ->
  (export_pdf env request w).1 = Returned (jsonify (error_obj (exc_str e)) 500) /\
  fs (export_pdf env request w).2 =
    delete temp_fop_config (delete temp_pdf (delete temp_fo tmp)).
Proof.
  intros Hrun.
  assert (Hrender : export_render env file temp_fo temp_pdf temp_fop_config w2 =
            (Raised e, set_fs (delete temp_fop_config (delete temp_pdf (delete temp_fo tmp)))
                              (add_log (EvSubprocess cmd) w2))).
  { unfold export_render.
    apply try_finally_run with (w1 := set_fs tmp (add_log (EvSubprocess cmd) w2)).
    - unfold export_render_try, load_global, mbind at 1, Py_bind at 1.
      apply bind_raised. unfold run_subprocess. fold cmd. now rewrite Hrun.
    - rewrite export_cleanup_run. reflexivity. }
  rewrite (export_pdf_response env request file w Hhas Hfile Hname).
  rewrite (export_pdf_try_rendered env request file w w1 w2 _ _ _ _ Hfo Htemps).
  rewrite Hrender. split; reflexivity.
Qed.

End ExportWithTempFiles.

Lemma export_pdf_removes_its_files_witness :
  let env := Sample.env_of Sample.working in
  let request := Sample.upload "rechnung.xml" Sample.cii_xml in
  let w' := (export_pdf env request (boot env ∅)).2 in
  fs w' !! "/tmp/tmp8f3a.fo" = None /\
  fs w' !! "/tmp/tmp8f3a.pdf" = None /\
  fs w' !! "/tmp/tmp8f3a.xconf" = None.
Proof.
  intros env request.
  set (w := boot env ∅).
  set (w1 := (export_fo env Sample.cii_xml "de" w).2).
  set (w2 := (export_tempfiles env "<fo:root/>" w1).2).
  apply (export_pdf_removes_its_files env request
           {| filename := Some "rechnung.xml"; stream := Sample.cii_xml |} w w1 w2
           "<fo:root/>" "/tmp/tmp8f3a.fo" "/tmp/tmp8f3a.pdf" "/tmp/tmp8f3a.xconf").
  - reflexivity.
  - reflexivity.
  - discriminate.
  - vm_compute. reflexivity.
  - vm_compute. reflexivity.
Defined.

Lemma export_pdf_renderer_not_started_witness :
  let failure := {| exc_class := FileNotFoundError;
                    exc_str := "[Errno 2] No such file or directory: '/usr/bin/java'" |} in
  let env := Faulty.env_of Sample.working None (Some failure) in
  let request := Sample.upload "rechnung.xml" Sample.cii_xml in
  (export_pdf env request (boot env ∅)).1 =
    Returned (jsonify (error_obj "[Errno 2] No such file or directory: '/usr/bin/java'") 500).
Proof.
  intros failure env request.
  set (w := boot env ∅).
  set (w1 := (export_fo env Sample.cii_xml "de" w).2).
  set (w2 := (export_tempfiles env "<fo:root/>" w1).2).
  apply (export_pdf_renderer_not_started env request
           {| filename := Some "rechnung.xml"; stream := Sample.cii_xml |} w w1 w2
           "<fo:root/>" "/tmp/tmp8f3a.fo" "/tmp/tmp8f3a.pdf" "/tmp/tmp8f3a.xconf"
           ltac:(reflexivity) ltac:(reflexivity) ltac:(discriminate)
           ltac:(vm_compute; reflexivity) ltac:(vm_compute; reflexivity)
           failure (fs w2)).
  vm_compute. reflexivity.
Defined.

(** ** Requests that are refused before anything is done *)

(** X8. A request without a [file] part, or whose file has an empty name,
    is answered with status 400 and the world is left untouched: by the
    view route always, by the export route when the renderer is available. *)
Theorem missing_upload_answered_400 (env : Env) (request : Request) (w : World) :
  (files request !! "file" = None \/
   exists file, files request !! "file" = Some file /\ filename file = Some EmptyString) ->
  let msg := match files request !! "file" with
             | None => "No file uploaded"
             | Some _ => "No file selected"
             end in
  transform env request w = (Returned (jsonify (error_obj msg) 400), w) /\
  (HAS_FOP (module_globals w) = true ->
   export_pdf env request w = (Returned (jsonify (error_obj msg) 400), w)).
Proof.
  intros Hbad. cbn zeta. split.
  - unfold transform.
    destruct Hbad as [Hnone|(file & Hfile & Hname)].
    + now rewrite Hnone.
    + now rewrite Hfile, bool_decide_eq_true_2 by exact Hname.
  - intros Hhas.
    unfold export_pdf, load_global, mbind at 1, Py_bind at 1.
    rewrite Hhas. cbn [negb].
    destruct Hbad as [Hnone|(file & Hfile & Hname)].
    + now rewrite Hnone.
    + now rewrite Hfile, bool_decide_eq_true_2 by exact Hname.
Qed.

Lemma missing_upload_answered_400_witness :
  let env := Sample.env_of Sample.working in
  let request := {| files := ∅; form := {[ "lang" := "en" ]} |} in
  transform env request (boot env ∅) =
    (Returned (jsonify (error_obj "No file uploaded") 400), boot env ∅).
Proof.
  intros env request.
  refine (proj1 (missing_upload_answered_400 env request (boot env ∅) _)).
  left. reflexivity.
Defined.

(** X9. In the view route a stylesheet that is not in place is reported as
    "XSLT not found" with the path that was looked for, the first-stage
    stylesheet before the second; the engine is not called and no temporary
    file is written. *)
Theorem transform_reports_missing_stylesheet (env : Env) (request : Request)
    (file : FileStorage) (dt name : string) (w : World) :
  files request !! "file" = Some file ->
  filename file <> Some EmptyString ->
  detect_document_type env (stream file) = Some dt ->
  xsl_mapping !! dt = Some name ->
  let first_xsl := XSL_DIR env // name in
  let html_xsl := XSL_DIR env // "xrechnung-html.xsl" in
  path_exists env first_xsl = false \/ path_exists env html_xsl = false ->
  let missing_xsl := if path_exists env first_xsl then html_xsl else first_xsl in
  transform env request w =
    (Returned (jsonify (error_obj ("XSLT not found: " +:+ missing_xsl)) 500), w).
Proof.
  intros Hfile Hname Hdt Hxsl first_xsl html_xsl Hmissing. cbn zeta.
  rewrite (transform_response env request file w Hfile Hname).
  unfold transform_xml.
  rewrite Hdt, (xsl_mapping_truthy dt name Hxsl).
  unfold getitem_key, getitem. rewrite Hxsl.
  unfold mbind at 1, Py_bind at 1, lift. fold first_xsl html_xsl.
  destruct (path_exists env first_xsl); cbn [negb].
  - destruct Hmissing as [Hm|Hm]; [discriminate Hm|]. now rewrite Hm.
  - reflexivity.
Qed.

Lemma transform_reports_missing_stylesheet_witness :
  let first_xsl := "/app/3rdparty/xrechnung-visualization/src/xsl/ubl-invoice-xr.xsl" in
  let html_xsl := "/app/3rdparty/xrechnung-visualization/src/xsl/xrechnung-html.xsl" in
  let env := Sample.env_of
               {| Sample.missing := [first_xsl; html_xsl];
                  Sample.first_result := Some "<xr:invoice/>";
                  Sample.second_result := Some "<html/>";
                  Sample.refused_suffix := None;
                  Sample.renderer := Sample.good_renderer;
                  Sample.java := None |} in
  transform env (Sample.upload "rechnung.xml" Sample.ubl_invoice_xml) (boot env ∅) =
    (Returned (jsonify (error_obj ("XSLT not found: " +:+ first_xsl)) 500), boot env ∅).
Proof.
  intros first_xsl html_xsl env.
  apply (transform_reports_missing_stylesheet env
           (Sample.upload "rechnung.xml" Sample.ubl_invoice_xml)
           {| filename := Some "rechnung.xml"; stream := Sample.ubl_invoice_xml |}
           "ubl_invoice" "ubl-invoice-xr.xsl" (boot env ∅)).
  - reflexivity.
  - discriminate.
  - reflexivity.
  - reflexivity.
  - left. reflexivity.
Defined.

(** ** The classifier and the table of stylesheets *)

(** X10. Whatever the parser answers or raises, the classifier answers
    [None] or one of the keys that [NAMESPACES] and [xsl_mapping] share, so
    that the lookup [xsl_mapping[doc_type]] of lines 141 and 235 finds a
    stylesheet and cannot raise [KeyError]. *)
Theorem detect_document_type_answers_mapped_type (env : Env) (xml_content : string) :
  detect_document_type env xml_content = None \/
  exists dt ns name,
    detect_document_type env xml_content = Some dt /\
    NAMESPACES !! dt = Some ns /\
    py_not (Some dt) = false /\
    getitem_key xsl_mapping (Some dt) = Returned name.
Proof.
  unfold detect_document_type, detect_document_type_try.
  destruct (etree_fromstring env xml_content) as [root|e]; [|now left].
  cbn [mbind Outcome_bind].
  destruct (if PyStr.contains "}" (tag root) then _ else _) as [ns|e]; [|now left].
  cbn [mbind Outcome_bind].
  change (getitem NAMESPACES "ubl_invoice")
    with (Returned "urn:oasis:names:specification:ubl:schema:xsd:Invoice-2").
  change (getitem NAMESPACES "ubl_creditnote")
    with (Returned "urn:oasis:names:specification:ubl:schema:xsd:CreditNote-2").
  change (getitem NAMESPACES "cii")
    with (Returned "urn:un:unece:uncefact:data:standard:CrossIndustryInvoice:100").
  cbn [mbind Outcome_bind mret Outcome_ret].
  repeat match goal with
         | |- context [if String.eqb ns ?u then _ else _] => destruct (String.eqb ns u)
         end.
  all: first [now left | right; eexists _, _, _; repeat split; vm_compute; reflexivity].
Qed.

(** ** Start-up *)

Lemma path_join_nonempty (dir name : string) : dir // name <> EmptyString.
Proof.
  unfold path_join, path_str, PyStr.or_else.
  now destruct (path_root _ +:+ PyStr.join "/" (path_parts _)).
Qed.

(** [pathlib] drops a trailing slash, repeated slashes and [.], keeps two
    leading slashes and reads three as one. *)
Example path_join_trailing_slash : "/opt/jdk/" // "bin" // "java" = "/opt/jdk/bin/java".
Proof. reflexivity. Qed.

Example path_join_root : "/" // "lib" // "fop" = "/lib/fop".
Proof. reflexivity. Qed.

Example path_join_normalises : "///srv/./a//b/" // "x" = "/srv/a/b/x".
Proof. reflexivity. Qed.

Example path_join_two_slashes : "//srv" // "x" = "//srv/x".
Proof. reflexivity. Qed.

Example path_join_relative : "." // "jdk" // "bin" = "jdk/bin".
Proof. reflexivity. Qed.

Example find_java_home_trailing_slash :
  let env := Sample.with_java_home "/opt/jdk/" (Sample.env_of Sample.working) in
  find_java env = Some "/opt/jdk/bin/java" /\
  JAVA_CMD (startup env) = Some "/opt/jdk/bin/java".
Proof. split; reflexivity. Qed.

(** What [find_java] answers: the [java] on the search path when there is
    one, else [bin/java] under a non-empty [JAVA_HOME], if that file exists. *)
Lemma find_java_Some (env : Env) (java : string) :
  find_java env = Some java <->
  (shutil_which_java env = Some java /\ java <> EmptyString) \/
  (py_not (shutil_which_java env) = true /\
   exists home, environ_JAVA_HOME env = Some home /\ home <> EmptyString /\
                java = home // "bin" // "java" /\ path_exists env java = true).
Proof.
  assert (Hhome :
    match environ_JAVA_HOME env with
    | Some home =>
        if negb (PyStr.falsy home) then
          if path_exists env (home // "bin" // "java")
          then Some (home // "bin" // "java") else None
        else None
    | None => None
    end = Some java <->
    exists home, environ_JAVA_HOME env = Some home /\ home <> EmptyString /\
                 java = home // "bin" // "java" /\ path_exists env java = true).
  { destruct (environ_JAVA_HOME env) as [[|d home]|]; cbn [PyStr.falsy negb].
    - split; [discriminate|]. intros (h & [= <-] & Hne & _). now destruct Hne.
    - destruct (path_exists env (String d home // "bin" // "java")) eqn:E.
      + split.
        * intros [= <-]. eexists. repeat split; [discriminate | exact E].
        * now intros (h & [= <-] & _ & -> & _).
      + split; [discriminate|]. intros (h & [= <-] & _ & -> & Hex). congruence.
    - split; [discriminate|]. now intros (h & [=] & _). }
  unfold find_java.
  destruct (shutil_which_java env) as [[|c p]|]; cbn [py_not PyStr.falsy negb].
  - rewrite Hhome. split; [intros H; right; now split|].
    intros [[[= <-] Hne]|[_ H]]; [now destruct Hne | exact H].
  - split.
    + intros [= <-]. left. split; [reflexivity | discriminate].
    + intros [[H _]|[H _]]; [exact H | discriminate H].
  - rewrite Hhome. split; [intros H; right; now split|].
    intros [[[=] _]|[_ H]]. exact H.
Qed.

(** X11. PDF export is switched on at start-up exactly when [fop.jar] is in
    [lib/fop] and a Java command is found: the [java] of the search path,
    which is preferred, or else [bin/java] under [JAVA_HOME].  The command
    that is kept is never the empty string. *)
Theorem startup_has_fop (env : Env) :
  HAS_FOP (startup env) = true <->
  path_exists env (FOP_HOME env // "fop.jar") = true /\
  exists java,
    JAVA_CMD (startup env) = Some java /\ java <> EmptyString /\
    ((shutil_which_java env = Some java) \/
     (py_not (shutil_which_java env) = true /\
      exists home, environ_JAVA_HOME env = Some home /\ home <> EmptyString /\
                   java = home // "bin" // "java" /\ path_exists env java = true)).
Proof.
  unfold startup, find_fop. cbn [HAS_FOP JAVA_CMD].
  rewrite andb_true_iff, !bool_decide_eq_true.
  split.
  - intros [Hjar [java Hjava]]. split.
    + destruct (path_exists env _); [reflexivity | now destruct Hjar].
    + exists java. split; [exact Hjava|].
      apply find_java_Some in Hjava as [[Hw Hne]|(Hw & home & Hh & Hne & -> & Hex)].
      * split; [exact Hne | now left].
      * split; [apply path_join_nonempty|]. right. split; [exact Hw|]. now exists home.
  - intros [-> (java & -> & _)]. split; eexists; reflexivity.
Qed.

(** X12. In a process whose globals are those computed at start-up, every
    subprocess an export starts is started with the Java command that
    [find_java] found, which is a non-empty string, as the first entry of
    its command line, and no entry of the command line is [None]. *)
Theorem export_pdf_starts_java_found_at_startup (env : Env) (request : Request) (w : World) :
  module_globals w = startup env ->
  exists evs,
    log (export_pdf env request w).2 = (log w ++ evs)%list /\
    forall cmd, In (EvSubprocess cmd) evs ->
      exists java, find_java env = Some java /\ java <> EmptyString /\
                   head cmd = Some (Some java) /\ Forall is_Some cmd.
Proof.
  intros Hg.
  assert (Hjava : HAS_FOP (module_globals w) = true ->
                  exists java, JAVA_CMD (module_globals w) = Some java /\
                               find_java env = Some java /\ java <> EmptyString).
  { rewrite Hg. unfold startup. cbn [HAS_FOP JAVA_CMD].
    rewrite andb_true_iff, !bool_decide_eq_true. intros [_ [java Hj]].
    exists java. split; [exact Hj|]. split; [exact Hj|].
    apply find_java_Some in Hj as [[_ H]|(_ & h & _ & _ & -> & _)];
      [exact H | apply path_join_nonempty]. }
  pose (P := fun ev => match ev with
                       | EvSubprocess cmd =>
                           exists java, find_java env = Some java /\ java <> EmptyString /\
                                        head cmd = Some (Some java) /\ Forall is_Some cmd
                       | _ => True
                       end).
  cut (exists evs, log (export_pdf env request w).2 = (log w ++ evs)%list /\ Forall P evs).
  { intros (evs & Hlog & Hall). exists evs. split; [exact Hlog|].
    intros cmd Hin. rewrite Stdlib.Lists.List.Forall_forall in Hall. exact (Hall _ Hin). }
  change (wp (export_pdf env request)
             (fun _ w' => exists evs, log w' = (log w ++ evs)%list /\ Forall P evs) w).
  unfold export_pdf, export_pdf_try, export_fo, export_tempfiles, export_render,
    export_render_try, export_cleanup, first_transformation, second_transformation,
    tempfile_with_content.
  wp_run.
  all: cbn [log fs module_globals set_fs add_log]; rewrite <- ?app_assoc; cbn [app].
  all: first
    [ exists []; split; [now rewrite app_nil_r | constructor]
    | eexists; split; [reflexivity|];
      repeat first [apply Forall_nil | apply Forall_cons; split]; try exact I ].
  all: match goal with
       | H : negb (HAS_FOP _) = false |- _ =>
           apply negb_false_iff in H; destruct (Hjava H) as (java & Hcmd & Hfind & Hne)
       end.
  all: exists java; rewrite Hcmd; repeat split; try assumption.
  all: unfold fop_cmd; repeat (apply Forall_cons; split; [eexists; reflexivity|]).
  all: now apply Forall_nil.
Qed.

Lemma export_pdf_starts_java_found_at_startup_witness :
  let env := Sample.env_of Sample.working in
  let request := Sample.upload "rechnung.xml" Sample.cii_xml in
  exists evs,
    log (export_pdf env request (boot env ∅)).2 = evs /\
    forall cmd, In (EvSubprocess cmd) evs ->
      exists java, find_java env = Some java /\ java <> EmptyString /\
                   head cmd = Some (Some java) /\ Forall is_Some cmd.
Proof.
  intros env request.
  apply (export_pdf_starts_java_found_at_startup env request (boot env ∅)).
  reflexivity.
Defined.

(** ** The first transformation, on its temporary copy of the upload *)

(** Lines 153-164: with the stylesheet compiled and the copy written under
    a name that was free, the first transformation is the engine's answer
    for that copy; the copy is gone afterwards, and the record has the two
    calls to the engine. *)
Lemma first_transformation_run (env : Env) (first_xsl xml_content temp_xml : string)
    (executable1 : Executable) (w : World) :
  compile_stylesheet env first_xsl = Returned executable1 ->
  mkstemp env ".xml" (fs w) = Returned temp_xml ->
  fs w !! temp_xml = None ->
  write_error env temp_xml xml_content (<[temp_xml := EmptyString]> (fs w)) = None ->
  first_transformation env first_xsl xml_content w =
    (transform_source_file env executable1 temp_xml (<[temp_xml := xml_content]> (fs w)),
     add_log (EvTransformFile (stylesheet executable1) temp_xml)
             (add_log (EvCompile first_xsl) w)).
Proof.
  intros Hcompile Htemp Hfresh Hwrite.
  unfold first_transformation, saxon_compile, tempfile_with_content, tempfile_create,
    file_write, try_finally, saxon_transform_file, os_unlink, mbind, Py_bind, mret, Py_ret.
  rewrite Hcompile. cbn [fs log module_globals set_fs add_log].
  rewrite Htemp. cbn [fs log module_globals set_fs add_log].
  rewrite Hwrite. cbn [fs log module_globals set_fs add_log].
  rewrite insert_insert_eq, lookup_insert_eq, delete_insert_eq.
  rewrite (delete_id _ _ Hfresh).
  unfold add_log, set_fs. cbn [fs log module_globals]. reflexivity.
Qed.

Section FirstStage.

Context (env : Env) (request : Request) (file : FileStorage) (w : World).
Context (dt name temp_xml : string) (executable1 : Executable).

Let lang := default "de" (form request !! "lang").
Let first_xsl := XSL_DIR env // name.
Let html_xsl := XSL_DIR env // "xrechnung-html.xsl".
Let copy := <[temp_xml := stream file]> (fs w).
Let after_first :=
  add_log (EvTransformFile (stylesheet executable1) temp_xml) (add_log (EvCompile first_xsl) w).

(** The upload is recognised, its first-stage stylesheet compiles, and the
    upload is copied to a temporary file whose name was free. *)
Hypothesis Hfile : files request !! "file" = Some file.
Hypothesis Hname : filename file <> Some EmptyString.
Hypothesis Hdt : detect_document_type env (stream file) = Some dt.
Hypothesis Hxsl : xsl_mapping !! dt = Some name.
Hypothesis Hcompile : compile_stylesheet env first_xsl = Returned executable1.
Hypothesis Htemp : mkstemp env ".xml" (fs w) = Returned temp_xml.
Hypothesis Hfresh : fs w !! temp_xml = None.
Hypothesis Hwrite :
  write_error env temp_xml (stream file) (<[temp_xml := EmptyString]> (fs w)) = None.

(** X13. An exception the engine raises while it runs the first
    transformation is answered by both routes with status 500 and the
    exception's own message; the temporary copy of the upload is removed,
    and the engine is not asked for the second transformation. *)
Theorem engine_error_answered_verbatim (e : Exc) :
  transform_source_file env executable1 temp_xml copy = Raised e ->
  let answer := jsonify (error_obj (exc_str e)) 500 in
  (path_exists env first_xsl = true -> path_exists env html_xsl = true ->
   transform env request w = (Returned answer, after_first)) /\
  (HAS_FOP (module_globals w) = true ->
   export_pdf env request w = (Returned answer, after_first)).
Proof.
  intros Hengine answer.
  assert (Hfirst : first_transformation env first_xsl (stream file) w =
                     (Raised e, after_first)).
  { rewrite (first_transformation_run env first_xsl (stream file) temp_xml executable1 w
               Hcompile Htemp Hfresh Hwrite).
    fold copy. now rewrite Hengine. }
  split.
  - intros H1 H2.
    rewrite (transform_response env request file w Hfile Hname).
    rewrite (transform_xml_stages env (stream file) _ dt name Hdt Hxsl w H1 H2).
    now rewrite (bind_raised _ _ _ _ _ Hfirst).
  - intros Hhas.
    rewrite (export_pdf_response env request file w Hhas Hfile Hname).
    unfold export_pdf_try.
    rewrite (bind_raised (export_fo env (stream file) _) _ w e after_first); [reflexivity|].
    rewrite (export_fo_stages env (stream file) _ dt name Hdt Hxsl w).
    now rewrite (bind_raised _ _ _ _ _ Hfirst).
Qed.

(** X14. When both stylesheets are in place and each transformation gives
    a non-empty result, the view route answers with status 200, the result
    of the second transformation as [html] and the name of the upload as
    [filename].  The second stylesheet is run with the language of the
    request as its parameter [lang], [de] when the request names none.  The
    temporary copy is removed and the engine has been called four times. *)
Theorem transform_success (xr_result node html : string) (executable2 : Executable) :
  path_exists env first_xsl = true ->
  path_exists env html_xsl = true ->
  transform_source_file env executable1 temp_xml copy = Returned (Some xr_result) ->
  xr_result <> EmptyString ->
  compile_stylesheet env html_xsl = Returned executable2 ->
  parse_xml env xr_result = Returned node ->
  transform_xdm_node env (set_parameter "lang" lang executable2) node = Returned (Some html) ->
  html <> EmptyString ->
  transform env request w =
    (Returned (jsonify [("html", JStr html);
                        ("filename", json_of_filename (filename file))] 200),
     add_log (EvTransformNode (stylesheet executable2))
             (add_log (EvCompile html_xsl) after_first)).
Proof.
  intros H1 H2 Hengine Hxr Hcompile2 Hparse Hsecond Hhtml.
  assert (Hfirst : first_transformation env first_xsl (stream file) w =
                     (Returned (Some xr_result), after_first)).
  { rewrite (first_transformation_run env first_xsl (stream file) temp_xml executable1 w
               Hcompile Htemp Hfresh Hwrite).
    fold copy. now rewrite Hengine. }
  rewrite (transform_response env request file w Hfile Hname).
  rewrite (transform_xml_stages env (stream file) _ dt name Hdt Hxsl w H1 H2).
  rewrite (bind_returned _ _ _ _ _ Hfirst).
  assert (Hnot1 : py_not (Some xr_result) = false) by now destruct xr_result.
  assert (Hnot2 : py_not (Some html) = false) by now destruct html.
  rewrite Hnot1. cbn [default from_option id].
  unfold second_transformation, saxon_compile, saxon_parse_xml, saxon_transform_node,
    lift, mbind, Py_bind.
  fold html_xsl. rewrite Hcompile2. cbn [fold_left fst snd].
  rewrite Hparse. fold lang. rewrite Hsecond, Hnot2. reflexivity.
Qed.

End FirstStage.

Lemma engine_error_answered_verbatim_witness :
  let failure := {| exc_class := PySaxonApiError;
                    exc_str := "XTDE0540: ambiguous rule match" |} in
  let env := Faulty.env_of Sample.working (Some failure) None in
  let request := Sample.upload "rechnung.xml" Sample.cii_xml in
  (transform env request (boot env ∅)).1 =
    Returned (jsonify (error_obj "XTDE0540: ambiguous rule match") 500) /\
  (export_pdf env request (boot env ∅)).1 =
    Returned (jsonify (error_obj "XTDE0540: ambiguous rule match") 500).
Proof.
  intros failure env request.
  destruct (engine_error_answered_verbatim env request
              {| filename := Some "rechnung.xml"; stream := Sample.cii_xml |} (boot env ∅)
              "cii" "cii-xr.xsl" "/tmp/tmp8f3a.xml"
              {| stylesheet := "/app/3rdparty/xrechnung-visualization/src/xsl/cii-xr.xsl";
                 parameters := [] |}
              ltac:(reflexivity) ltac:(discriminate) ltac:(reflexivity) ltac:(reflexivity)
              ltac:(reflexivity) ltac:(reflexivity) ltac:(reflexivity) ltac:(reflexivity)
              failure ltac:(reflexivity)) as [Hview Hexport].
  split.
  - now rewrite Hview.
  - now rewrite Hexport.
Defined.

Lemma transform_success_witness :
  let env := Sample.env_of
               {| Sample.missing := [];
                  Sample.first_result := Some "<xr:invoice/>";
                  Sample.second_result := Some "<html/>";
                  Sample.refused_suffix := None;
                  Sample.renderer := Sample.good_renderer;
                  Sample.java := None |} in
  let request := {| files := {[ "file" := {| filename := Some "rechnung.xml";
                                             stream := Sample.ubl_invoice_xml |} ]};
                    form := {[ "lang" := "en" ]} |} in
  (transform env request (boot env ∅)).1 =
    Returned (jsonify [("html", JStr "<html/>"); ("filename", JStr "rechnung.xml")] 200).
Proof.
  intros env request.
  rewrite (transform_success env request
             {| filename := Some "rechnung.xml"; stream := Sample.ubl_invoice_xml |}
             (boot env ∅) "ubl_invoice" "ubl-invoice-xr.xsl" "/tmp/tmp8f3a.xml"
             {| stylesheet :=
                  "/app/3rdparty/xrechnung-visualization/src/xsl/ubl-invoice-xr.xsl";
                parameters := [] |}
             ltac:(reflexivity) ltac:(discriminate) ltac:(reflexivity) ltac:(reflexivity)
             ltac:(reflexivity) ltac:(reflexivity) ltac:(reflexivity) ltac:(reflexivity)
             "<xr:invoice/>" "<xr:invoice/>" "<html/>"
             {| stylesheet :=
                  "/app/3rdparty/xrechnung-visualization/src/xsl/xrechnung-html.xsl";
                parameters := [] |}
             ltac:(reflexivity) ltac:(reflexivity) ltac:(reflexivity) ltac:(discriminate)
             ltac:(reflexivity) ltac:(reflexivity) ltac:(reflexivity) ltac:(discriminate)).
  reflexivity.
Defined.

(** ** What the renderer is given *)

(** X15. When the three temporary files of an export have been created
    under names that differ from each other, the file passed with [-fo]
    holds the XSL-FO text, the file passed with [-c] holds the generated
    configuration, and the output file is there and empty; no other file of
    the temporary directory is touched and no call is recorded. *)
Theorem export_tempfiles_contents (env : Env) (fo_result : string) (w w2 : World)
    (temp_fo temp_pdf temp_fop_config : string) :
  export_tempfiles env fo_result w = (Returned (temp_fo, temp_pdf, temp_fop_config), w2) ->
  temp_fo <> temp_pdf -> temp_fo <> temp_fop_config -> temp_pdf <> temp_fop_config ->
  fs w2 !! temp_fo = Some fo_result /\
  fs w2 !! temp_pdf = Some EmptyString /\
  fs w2 !! temp_fop_config = Some (generate_fop_config env) /\
  (forall p, p <> temp_fo -> p <> temp_pdf -> p <> temp_fop_config ->
             fs w2 !! p = fs w !! p) /\
  log w2 = log w /\
  module_globals w2 = module_globals w.
Proof.
  intros Hrun.
  assert (Hwp : wp (export_tempfiles env fo_result)
                   (fun o w' =>
                      forall a b c, o = Returned (a, b, c) ->
                        a <> b -> a <> c -> b <> c ->
                        fs w' !! a = Some fo_result /\
                        fs w' !! b = Some EmptyString /\
                        fs w' !! c = Some (generate_fop_config env) /\
                        (forall p, p <> a -> p <> b -> p <> c -> fs w' !! p = fs w !! p) /\
                        log w' = log w /\
                        module_globals w' = module_globals w) w).
  { unfold export_tempfiles, tempfile_with_content.
    wp_run.
    all: intros a b c [= <- <- <-] Hab Hac Hbc.
    repeat split.
    - now rewrite !lookup_insert_ne, lookup_insert_eq by congruence.
    - now rewrite !lookup_insert_ne, lookup_insert_eq by congruence.
    - now rewrite lookup_insert_eq.
    - intros q Ha Hb Hc. now rewrite !lookup_insert_ne by congruence. }
  unfold wp in Hwp. rewrite Hrun in Hwp. exact (Hwp _ _ _ eq_refl).
Qed.

Lemma export_tempfiles_contents_witness :
  let env := Sample.env_of Sample.working in
  let w2 := (export_tempfiles env "<fo:root/>" (boot env ∅)).2 in
  fs w2 !! "/tmp/tmp8f3a.fo" = Some "<fo:root/>" /\
  fs w2 !! "/tmp/tmp8f3a.xconf" = Some (generate_fop_config env).
Proof.
  intros env w2.
  assert (Hrun : export_tempfiles env "<fo:root/>" (boot env ∅) =
                   (Returned ("/tmp/tmp8f3a.fo", "/tmp/tmp8f3a.pdf", "/tmp/tmp8f3a.xconf"), w2))
    by (vm_compute; reflexivity).
  destruct (export_tempfiles_contents env "<fo:root/>" (boot env ∅) w2
              "/tmp/tmp8f3a.fo" "/tmp/tmp8f3a.pdf" "/tmp/tmp8f3a.xconf" Hrun
              ltac:(discriminate) ltac:(discriminate) ltac:(discriminate))
    as (Hfo & _ & Hconf & _).
  split; assumption.
Defined.
